(** * A shallow embedding of [luxmed_api.py]

    The module is a client of a REST service.  Every public method of the
    class [LuxmedApi] first obtains a bearer token ([POST /token]), then
    sends one [GET] request and turns the JSON body of the answer into
    plain tuples or records.

    What the Python code gets from the outside is made explicit here:
    - the HTTP peer ([requests.post], [requests.get]) is a function from
      the exchanges seen so far and the new request to a response;
    - [uuid.uuid4()] is a sequence of strings, read through a counter;
    - [datetime.fromisoformat] is a partial function on strings;
    - [print] appends to a list of lines.
    Exceptions are values of the type [exn]. *)

From Stdlib Require Import ZArith Ascii String DecimalString.
From stdpp Require Import base option list strings gmap.

Local Open Scope string_scope.
Local Open Scope Z_scope.
Local Set Warnings "-register-all".

(** ** Python values parsed from JSON *)

(** The result of [response.json()].  A JSON object is a Python [dict]
    with string keys.  Numbers are the integers: a float behaves like an
    integer under every operation used by this module (it can neither be
    subscripted nor iterated). *)
Inductive json : Type :=
| JNull
| JBool (b : bool)
| JNum (n : Z)
| JStr (s : string)
| JArr (items : list json)
| JObj (fields : gmap string json).

(** ** Exceptions *)

(** [LuxmedApiException] is the only exception class the module declares;
    the others are the built-in ones raised by subscripting, iteration,
    string concatenation and parsing. *)
Inductive exn : Type :=
| LuxmedApiException (payload : json)
| KeyError (key : string)
| TypeError
| ValueError
| JSONDecodeError.

Inductive result (A : Type) : Type :=
| Ok (a : A)
| Raise (e : exn).
Arguments Ok {A} a.
Arguments Raise {A} e.

Definition result_bind {A B} (r : result A) (k : A -> result B) : result B :=
  match r with
  | Ok a => k a
  | Raise e => Raise e
  end.

Declare Scope result_scope.
Delimit Scope result_scope with result.
Notation "'let?' x ':=' r 'in' k" := (result_bind r (fun x => k))
  (at level 10, x name, r at level 100, k at level 200) : result_scope.

(** ** HTTP messages *)

Inductive http_method : Type := GET | POST.

(** A value passed in a query string: [None], an [int] or a [str]. *)
Inductive pyval : Type :=
| PNone
| PInt (n : Z)
| PStr (s : string).

(** The [params] argument of a request: not given at all ([requests.post]
    in this module), the empty tuple (the default of
    [_send_request_for_filters]), or a dict. *)
Inductive query : Type :=
| QAbsent
| QEmptyTuple
| QDict (d : gmap string pyval).

Record Request : Type := mkRequest {
  req_method : http_method;
  req_url : string;
  req_headers : gmap string string;
  req_params : query;
  req_data : option (gmap string string)
}.

(** [status_code] and the outcome of [response.json()]; [None] stands for
    a body that is not JSON, where [json()] raises. *)
Record Response : Type := mkResponse {
  status_code : Z;
  json_body : option json
}.

Definition response_json (response : Response) : result json :=
  match json_body response with
  | Some j => Ok j
  | None => Raise JSONDecodeError
  end.

(** ** Subscripting and iteration *)

(** [v[key]] for a string key. *)
Definition getitem (v : json) (key : string) : result json :=
  match v with
  | JObj fields =>
      match fields !! key with
      | Some x => Ok x
      | None => Raise (KeyError key)
      end
  | _ => Raise TypeError
  end.

Fixpoint chars (s : string) : list json :=
  match s with
  | EmptyString => []
  | String c s' => JStr (String c EmptyString) :: chars s'
  end.

(** The sequence a [for] loop runs over: a list gives its items, a dict
    its keys, a string its characters; nothing else can be iterated. *)
Definition iterate (v : json) : result (list json) :=
  match v with
  | JArr items => Ok items
  | JObj fields => Ok (JStr <$> (map_to_list fields).*1)
  | JStr s => Ok (chars s)
  | _ => Raise TypeError
  end.

(** [xs.append(x)] gives this list. *)
Definition appended {A} (xs : list A) (x : A) : list A := (xs ++ [x])%list.

(** [for x in xs: acc = body(acc, x)], stopping at the first exception. *)
Fixpoint for_each {A X} (body : A -> X -> result A) (acc : A) (xs : list X)
  : result A :=
  match xs with
  | [] => Ok acc
  | x :: xs' => result_bind (body acc x) (fun acc' => for_each body acc' xs')
  end.

(** ** Response validation *)

Definition _validate_response (response : Response) : result unit :=
  if negb (status_code response =? 200)
  then result_bind (response_json response)
         (fun payload => Raise (LuxmedApiException payload))
  else Ok tt.

(** ** The world outside and the state of a run *)

Record date : Type := mkDate {
  d_year : Z;
  d_month : Z;
  d_day : Z
}.

Record datetime : Type := mkDatetime {
  year : Z;
  month : Z;
  day : Z;
  hour : Z;
  minute : Z;
  second : Z;
  microsecond : Z
}.

(** [dt.date()] *)
Definition date_of (dt : datetime) : date :=
  mkDate (year dt) (month dt) (day dt).

(** [s.zfill(width)] on a string of digits. *)
Definition zfill (width : nat) (s : string) : string :=
  String.concat "" (replicate (width - String.length s) "0") ++ s.

(** The decimal digits of a number that is not negative, as ["%d"] prints
    them. *)
Definition decimal (n : Z) : string :=
  NilZero.string_of_uint (N.to_uint (Z.to_N n)).

(** [str(d)] for a date, which is [d.isoformat()]: ["%04d-%02d-%02d"]. *)
Definition date_str (d : date) : string :=
  zfill 4 (decimal (d_year d)) ++ "-" ++ zfill 2 (decimal (d_month d))
  ++ "-" ++ zfill 2 (decimal (d_day d)).

(** Everything the module reads from outside itself.  [transport] is
    the HTTP peer: it sees the earlier exchanges and the new request, and
    it always answers (a connection that breaks before any response is
    not part of this embedding).
    [uuid4 n] is [str] of the [n]-th UUID drawn in the process.
    [_CUSTOM_USER_AGENT] is the class attribute computed once when the
    module is loaded. *)
Record World : Type := mkWorld {
  transport : list (Request * Response) -> Request -> Response;
  uuid4 : nat -> string;
  fromisoformat : string -> option datetime;
  _CUSTOM_USER_AGENT : string
}.

Record State : Type := mkState {
  http_log : list (Request * Response);
  uuids_drawn : nat;
  stdout : list string
}.

(** State, exceptions and read access to the world. *)
Definition M (A : Type) : Type := World -> State -> result A * State.

Definition ret {A} (a : A) : M A := fun _ st => (Ok a, st).

Definition bind {A B} (m : M A) (k : A -> M B) : M B :=
  fun world st =>
    match m world st with
    | (Ok a, st') => k a world st'
    | (Raise e, st') => (Raise e, st')
    end.

Definition lift {A} (r : result A) : M A := fun _ st => (r, st).

Definition ask : M World := fun world st => (Ok world, st).

Declare Scope M_scope.
Delimit Scope M_scope with M.
Notation "x <- m ; k" := (bind m (fun x => k))
  (at level 100, m at next level, right associativity) : M_scope.
Notation "m ;; k" := (bind m (fun _ => k))
  (at level 100, right associativity) : M_scope.
Local Open Scope M_scope.

Definition print (line : string) : M unit := fun _ st =>
  (Ok tt, mkState (http_log st) (uuids_drawn st) (appended (stdout st) line)).

(** [str(uuid.uuid4())] *)
Definition str_uuid4 : M string := fun world st =>
  (Ok (uuid4 world (uuids_drawn st)),
   mkState (http_log st) (S (uuids_drawn st)) (stdout st)).

Definition send (request : Request) : M Response := fun world st =>
  let response := transport world (http_log st) request in
  (Ok response,
   mkState (appended (http_log st) (request, response)) (uuids_drawn st)
     (stdout st)).

Definition requests_post (url : string) (headers data : gmap string string)
  : M Response :=
  send (mkRequest POST url headers QAbsent (Some data)).

Definition requests_get (url : string) (headers : gmap string string)
    (params : query) : M Response :=
  send (mkRequest GET url headers params None).

(** ** The class [LuxmedApi] *)

(** Modelled from the spec: [config_loader.read_configuration] is not part
    of this file.  The configuration source supplies the three keys
    [username], [password] and [language]; a missing key fails when the
    client is constructed, so an instance always holds all three. *)
Record Config : Type := mkConfig {
  username : string;
  password : string;
  language : string
}.

Record LuxmedApi : Type := mkLuxmedApi {
  _config : Config
}.

Definition _API_BASE_URL : string :=
  "https://portalpacjenta.luxmed.pl/PatientPortalMobileAPI/api".

(** [s[:n]] *)
Definition slice_to (n : nat) (s : string) : string := substring 0 n s.

(** The dict literal of [_prepare_authentication_body]. *)
Definition authentication_dict (self : LuxmedApi)
    (account_id client_id : string) : gmap string string :=
  <["username" := username (_config self)]>
  (<["password" := password (_config self)]>
  (<["grant_type" := "password"]>
  (<["account_id" := account_id]>
  (<["client_id" := client_id]> ∅)))).

Definition _prepare_authentication_body (self : LuxmedApi)
  : M (gmap string string) :=
  account <- str_uuid4;
  client <- str_uuid4;
  ret (authentication_dict self (slice_to 35 account) client).

(** The dict literal [headers] of [_get_access_token]. *)
Definition token_headers (self : LuxmedApi) (custom_user_agent : string)
  : gmap string string :=
  <["Api-Version" := "2.0"]>
  (<["accept-language" := language (_config self)]>
  (<["Content-Type" := "application/x-www-form-urlencoded"]>
  (<["accept-encoding" := "gzip"]>
  (<["x-api-client-identifier" := "Android"]>
  (<["User-Agent" := "okhttp/3.11.0"]>
  (<["Custom-User-Agent" := custom_user_agent]> ∅)))))).

Definition _get_access_token (self : LuxmedApi) : M json :=
  print "Retrieving an access token from the Luxmed API...";;
  world <- ask;
  let headers := token_headers self (_CUSTOM_USER_AGENT world) in
  authentication_body <- _prepare_authentication_body self;
  response <- requests_post (_API_BASE_URL ++ "/token") headers
                authentication_body;
  lift (_validate_response response);;
  print "The access token has been successfully retrieved";;
  lift (let? body := response_json response in getitem body "access_token")%result.

(** ["Bearer " + access_token]: only a [str] can be appended to a [str]. *)
Definition str_add (prefix : string) (v : json) : result string :=
  match v with
  | JStr s => Ok (prefix ++ s)
  | _ => Raise TypeError
  end.

(** The dict literal returned by [_prepare_headers]. *)
Definition bearer_headers (self : LuxmedApi)
    (authorization api_version custom_user_agent : string)
  : gmap string string :=
  <["Authorization" := authorization]>
  (<["Api-Version" := api_version]>
  (<["accept-language" := language (_config self)]>
  (<["Content-Type" := "application/json; charset=UTF-8"]>
  (<["accept-encoding" := "gzip"]>
  (<["x-api-client-identifier" := "Android"]>
  (<["User-Agent" := "okhttp/3.11.0"]>
  (<["Custom-User-Agent" := custom_user_agent]> ∅))))))).

Definition _prepare_headers (self : LuxmedApi) (api_version : string)
  : M (gmap string string) :=
  access_token <- _get_access_token self;
  authorization <- lift (str_add "Bearer " access_token);
  world <- ask;
  ret (bearer_headers self authorization api_version
         (_CUSTOM_USER_AGENT world)).

Definition _send_request_for_filters (self : LuxmedApi) (params : query)
  : M json :=
  headers <- _prepare_headers self "3.0";
  response <- requests_get
                (_API_BASE_URL ++ "/visits/available-terms/reservation-filter")
                headers params;
  lift (_validate_response response);;
  lift (response_json response).

(** The loop shared in shape by the three discovery methods:
    [for x in response_body[key]: out.append((x['Id'], x['Name']))]. *)
Definition id_name_pairs (response_body : json) (key : string)
  : result (list (json * json)) :=
  (let? listed := getitem response_body key in
   let? entries := iterate listed in
   for_each
     (fun out entry =>
        let? entry_id := getitem entry "Id" in
        let? entry_name := getitem entry "Name" in
        Ok (appended out (entry_id, entry_name)))
     [] entries)%result.

Definition get_cities (self : LuxmedApi) : M (list (json * json)) :=
  print "Retrieving cities from the Luxmed API...";;
  response_body <- _send_request_for_filters self QEmptyTuple;
  lift (id_name_pairs response_body "Cities").

Definition get_services (self : LuxmedApi) (city_id : Z)
  : M (list (json * json)) :=
  print "Retrieving services from the Luxmed API...";;
  let params := <["filter.cityId" := PInt city_id]> ∅ in
  response_body <- _send_request_for_filters self (QDict params);
  lift (id_name_pairs response_body "Services").

Definition get_clinics (self : LuxmedApi) (city_id : Z)
  : M (list (json * json)) :=
  print "Retrieving clinics from the Luxmed API...";;
  let params := <["filter.cityId" := PInt city_id]> ∅ in
  response_body <- _send_request_for_filters self (QDict params);
  lift (id_name_pairs response_body "Clinics").

(** The dicts built by [get_visits]: [{'time', 'doctor_name',
    'clinic_name'}] and [{'date', 'visits'}]. *)
Record Visit : Type := mkVisit {
  time : json;
  doctor_name : json;
  clinic_name : json
}.

Record VisitsInDay : Type := mkVisitsInDay {
  date_ : string;
  visits : list Visit
}.

Definition optional_int (v : option Z) : pyval :=
  match v with
  | Some n => PInt n
  | None => PNone
  end.

(** The body of the inner loop of [get_visits]. *)
Definition append_visit (current_day_visits : list Visit)
    (current_visit : json) : result (list Visit) :=
  (let? visit_time := getitem current_visit "FormattedVisitHour" in
   let? doctor := getitem current_visit "Doctor" in
   let? doctor_name := getitem doctor "Name" in
   let? clinic := getitem current_visit "Clinic" in
   let? clinic_name := getitem clinic "Name" in
   Ok (appended current_day_visits
         (mkVisit visit_time doctor_name clinic_name)))%result.

(** [str(datetime.fromisoformat(date_with_time).date())] *)
Definition date_part (world : World) (date_with_time : json) : result string :=
  match date_with_time with
  | JStr s =>
      match fromisoformat world s with
      | Some dt => Ok (date_str (date_of dt))
      | None => Raise ValueError
      end
  | _ => Raise TypeError
  end.

(** The body of the outer loop of [get_visits]. *)
Definition append_day (world : World) (found_visits : list VisitsInDay)
    (visits_in_current_day : json) : result (list VisitsInDay) :=
  (let? slots := getitem visits_in_current_day
                   "AvailableVisitsTermPresentation" in
   let? slots := iterate slots in
   let? current_day_visits := for_each append_visit [] slots in
   let? visit_date := getitem visits_in_current_day "VisitDate" in
   let? date_with_time := getitem visit_date "StartDateTime" in
   let? date := date_part world date_with_time in
   Ok (appended found_visits (mkVisitsInDay date current_day_visits)))%result.

Definition found_visits_of (world : World) (raw_visits : json)
  : result (list VisitsInDay) :=
  (let? normal_visits := getitem raw_visits "AgregateAvailableVisitTerms" in
   let? groups := iterate normal_visits in
   for_each (append_day world) [] groups)%result.

(** The dict literal [params] of [get_visits]. *)
Definition visit_params (city_id service_id : pyval) (clinic_id : pyval)
    (from_date to_date : pyval) : gmap string pyval :=
  <["filter.cityId" := city_id]>
  (<["filter.serviceId" := service_id]>
  (<["filter.clinicId" := clinic_id]>
  (<["filter.fromDate" := from_date]>
  (<["filter.toDate" := to_date]> ∅)))).

Definition get_visits (self : LuxmedApi) (city_id service_id : Z)
    (from_date to_date : string) (clinic_id doctor_id : option Z)
  : M (list VisitsInDay) :=
  print "Getting visits for given search parameters...";;
  headers <- _prepare_headers self "2.0";
  let params := visit_params (PInt city_id) (PInt service_id)
                  (optional_int clinic_id) (PStr from_date) (PStr to_date) in
  response <- requests_get (_API_BASE_URL ++ "/visits/available-terms")
                headers (QDict params);
  lift (_validate_response response);;
  raw_visits <- lift (response_json response);
  world <- ask;
  lift (found_visits_of world raw_visits).

(** ** Calls of the public methods *)

(** A caller invokes one of the four public methods. *)
Inductive call : Type :=
| GetCities
| GetServices (city_id : Z)
| GetClinics (city_id : Z)
| GetVisits (city_id service_id : Z) (from_date to_date : string)
    (clinic_id doctor_id : option Z).

Inductive outcome : Type :=
| Pairs (pairs : list (json * json))
| Days (days : list VisitsInDay).

Definition run (self : LuxmedApi) (c : call) : M outcome :=
  match c with
  | GetCities => pairs <- get_cities self; ret (Pairs pairs)
  | GetServices city_id => pairs <- get_services self city_id; ret (Pairs pairs)
  | GetClinics city_id => pairs <- get_clinics self city_id; ret (Pairs pairs)
  | GetVisits city_id service_id from_date to_date clinic_id doctor_id =>
      days <- get_visits self city_id service_id from_date to_date
                clinic_id doctor_id;
      ret (Days days)
  end.

(** ** Vocabulary of the statements *)

Definition token_url : string := _API_BASE_URL ++ "/token".
Definition filters_url : string :=
  _API_BASE_URL ++ "/visits/available-terms/reservation-filter".
Definition terms_url : string := _API_BASE_URL ++ "/visits/available-terms".

(** The value reached from a JSON object by following keys downwards. *)
Fixpoint at_path (path : list string) (v : json) : option json :=
  match path with
  | [] => Some v
  | key :: path' =>
      match v with
      | JObj fields => fields !! key ≫= at_path path'
      | _ => None
      end
  end.

(** The parsed body of the response received last. *)
Definition upstream_body (st : State) : option json :=
  last (http_log st) ≫= (λ exchange, json_body exchange.2).

(** The array a discovery method reads. *)
Definition discovery_key (c : call) : option string :=
  match c with
  | GetCities => Some "Cities"
  | GetServices _ => Some "Services"
  | GetClinics _ => Some "Clinics"
  | GetVisits _ _ _ _ _ _ => None
  end.

(** What a token response is worth to [_prepare_headers]: the value of
    the [Authorization] header, or the exception that ends the call. *)
Definition token_of (response : Response) : result json :=
  (let? _ := _validate_response response in
   let? body := response_json response in
   getitem body "access_token")%result.

Definition authorization_of (response : Response) : result string :=
  (let? access_token := token_of response in
   str_add "Bearer " access_token)%result.

(** The request [_get_access_token] sends when [drawn] UUIDs have been
    drawn before. *)
Definition token_request (self : LuxmedApi) (world : World) (drawn : nat)
  : Request :=
  mkRequest POST token_url
    (token_headers self (_CUSTOM_USER_AGENT world)) QAbsent
    (Some (authentication_dict self
             (slice_to 35 (uuid4 world drawn)) (uuid4 world (S drawn)))).

Definition endpoint (c : call) : string :=
  match c with
  | GetVisits _ _ _ _ _ _ => terms_url
  | _ => filters_url
  end.

Definition api_version (c : call) : string :=
  match c with
  | GetVisits _ _ _ _ _ _ => "2.0"
  | _ => "3.0"
  end.

Definition params_of (c : call) : query :=
  match c with
  | GetCities => QEmptyTuple
  | GetServices city_id | GetClinics city_id =>
      QDict (<["filter.cityId" := PInt city_id]> ∅)
  | GetVisits city_id service_id from_date to_date clinic_id _ =>
      QDict (visit_params (PInt city_id) (PInt service_id)
               (optional_int clinic_id) (PStr from_date) (PStr to_date))
  end.

(** The data request of a call, once the token has been granted. *)
Definition data_request (self : LuxmedApi) (world : World) (c : call)
    (authorization : string) : Request :=
  mkRequest GET (endpoint c)
    (bearer_headers self authorization (api_version c)
       (_CUSTOM_USER_AGENT world))
    (params_of c) None.

(** What a call makes of the parsed body of its data response. *)
Definition normalise (world : World) (c : call) (body : json)
  : result outcome :=
  match c with
  | GetCities => result_bind (id_name_pairs body "Cities") (λ l, Ok (Pairs l))
  | GetServices _ =>
      result_bind (id_name_pairs body "Services") (λ l, Ok (Pairs l))
  | GetClinics _ =>
      result_bind (id_name_pairs body "Clinics") (λ l, Ok (Pairs l))
  | GetVisits _ _ _ _ _ _ =>
      result_bind (found_visits_of world body) (λ l, Ok (Days l))
  end.

Definition answer_of (world : World) (c : call) (response : Response)
  : result outcome :=
  (let? _ := _validate_response response in
   let? body := response_json response in
   normalise world c body)%result.

(** What the loops make of one element: of a discovery array, of the
    slots of a day, of the day-groups. *)

Definition id_name (entry : json) : result (json * json) :=
  (let? entry_id := getitem entry "Id" in
   let? entry_name := getitem entry "Name" in
   Ok (entry_id, entry_name))%result.

Definition visit_of (current_visit : json) : result Visit :=
  (let? visit_time := getitem current_visit "FormattedVisitHour" in
   let? doctor := getitem current_visit "Doctor" in
   let? doctor_name := getitem doctor "Name" in
   let? clinic := getitem current_visit "Clinic" in
   let? clinic_name := getitem clinic "Name" in
   Ok (mkVisit visit_time doctor_name clinic_name))%result.

Definition day_of (world : World) (group : json) : result VisitsInDay :=
  (let? slots := getitem group "AvailableVisitsTermPresentation" in
   let? slots := iterate slots in
   let? current_day_visits := for_each append_visit [] slots in
   let? visit_date := getitem group "VisitDate" in
   let? date_with_time := getitem visit_date "StartDateTime" in
   let? date := date_part world date_with_time in
   Ok (mkVisitsInDay date current_day_visits))%result.

(** A token response is accepted when its status is 200 and its body
    holds a string under ['access_token']. *)
Definition granted (response : Response) (access_token : string) : Prop :=
  status_code response = 200 /\
  ∃ body, json_body response = Some body /\
          at_path ["access_token"] body = Some (JStr access_token).

(** The state after a caller has made the calls one after the other,
    whether they returned or raised. *)
Fixpoint session (self : LuxmedApi) (calls : list call) (world : World)
    (st : State) : State :=
  match calls with
  | [] => st
  | c :: calls' => session self calls' world (run self c world st).2
  end.

(** The version discipline of the two data endpoints. *)
Definition version_ok (request : Request) : Prop :=
  (req_url request = filters_url ->
   req_headers request !! "Api-Version" = Some "3.0") /\
  (req_url request = terms_url ->
   req_headers request !! "Api-Version" = Some "2.0").

(** ** Vocabulary of the further properties *)

(** The two responses of a call that starts in [st]. *)
Definition token_response (self : LuxmedApi) (world : World) (st : State)
  : Response :=
  transport world (http_log st) (token_request self world (uuids_drawn st)).

Definition data_response (self : LuxmedApi) (world : World) (st : State)
    (c : call) (access_token : string) : Response :=
  transport world
    (http_log st ++ [(token_request self world (uuids_drawn st),
                      token_response self world st)])%list
    (data_request self world c ("Bearer " ++ access_token)).

(** The key a method reads in the body of its data response. *)
Definition body_key (c : call) : string :=
  match c with
  | GetCities => "Cities"
  | GetServices _ => "Services"
  | GetClinics _ => "Clinics"
  | GetVisits _ _ _ _ _ _ => "AgregateAvailableVisitTerms"
  end.

(** The line a public method prints first. *)
Definition banner (c : call) : string :=
  match c with
  | GetCities => "Retrieving cities from the Luxmed API..."
  | GetServices _ => "Retrieving services from the Luxmed API..."
  | GetClinics _ => "Retrieving clinics from the Luxmed API..."
  | GetVisits _ _ _ _ _ _ => "Getting visits for given search parameters..."
  end.

(** An entry of a discovery array and the pair read from it. *)
Definition entry_matches (entry : json) (p : json * json) : Prop :=
  at_path ["Id"] entry = Some p.1 /\ at_path ["Name"] entry = Some p.2.

(** A slot and the visit read from it. *)
Definition slot_matches (slot : json) (visit : Visit) : Prop :=
  at_path ["FormattedVisitHour"] slot = Some (time visit) /\
  at_path ["Doctor"; "Name"] slot = Some (doctor_name visit) /\
  at_path ["Clinic"; "Name"] slot = Some (clinic_name visit).

(** A day-group and the day read from it. *)
Definition day_matches (world : World) (group : json) (day : VisitsInDay)
  : Prop :=
  ∃ slots ts dt,
    at_path ["AvailableVisitsTermPresentation"] group = Some (JArr slots) /\
    Forall2 slot_matches slots (visits day) /\
    at_path ["VisitDate"; "StartDateTime"] group = Some (JStr ts) /\
    fromisoformat world ts = Some dt /\
    date_ day = date_str (date_of dt).

(** The result of a call that found nothing to loop over. *)
Definition empty_outcome (c : call) : outcome :=
  match c with
  | GetVisits _ _ _ _ _ _ => Days []
  | _ => Pairs []
  end.

Definition is_post (exchange : Request * Response) : bool :=
  match req_method exchange.1 with
  | POST => true
  | GET => false
  end.

(** The headers every request of the module carries, whatever its
    endpoint. *)
Definition common_headers_ok (self : LuxmedApi) (world : World)
    (request : Request) : Prop :=
  req_headers request !! "Custom-User-Agent" = Some (_CUSTOM_USER_AGENT world) /\
  req_headers request !! "accept-language" = Some (language (_config self)) /\
  req_headers request !! "User-Agent" = Some "okhttp/3.11.0" /\
  req_headers request !! "x-api-client-identifier" = Some "Android" /\
  req_headers request !! "accept-encoding" = Some "gzip".


(** ** A reference instance of [datetime.fromisoformat]

    The parser belongs to the Python library, so the client is verified
    for every [fromisoformat] a [World] may carry.  To run the client on
    concrete responses, this instance accepts what [datetime.isoformat()]
    prints for a datetime without time zone: [YYYY-MM-DD], optionally
    followed by one separator character and [HH[:MM[:SS[.fff[fff]]]]]. *)
Module Iso.

Definition digit_of (c : ascii) : option Z :=
  let n := Z.of_nat (nat_of_ascii c) in
  if (48 <=? n) && (n <=? 57) then Some (n - 48) else None.

Fixpoint number_of (acc : Z) (s : string) : option Z :=
  match s with
  | EmptyString => Some acc
  | String c s' =>
      match digit_of c with
      | Some d => number_of (10 * acc + d) s'
      | None => None
      end
  end.

(** [int(s[start:start+width])], for exactly [width] digits. *)
Definition field (start width : nat) (s : string) : option Z :=
  let part := substring start width s in
  if (String.length part =? width)%nat then number_of 0 part else None.

Definition is_leap (y : Z) : bool :=
  (y mod 4 =? 0) && (negb (y mod 100 =? 0) || (y mod 400 =? 0)).

Definition days_in_month (y m : Z) : Z :=
  match m with
  | 2 => if is_leap y then 29 else 28
  | 4 | 6 | 9 | 11 => 30
  | _ => 31
  end.

Definition separator_at (i : nat) (c : ascii) (s : string) : bool :=
  match String.get i s with
  | Some c' => Ascii.eqb c c'
  | None => false
  end.

Definition parse_date (s : string) : option date :=
  y ← field 0 4 s;
  m ← field 5 2 s;
  d ← field 8 2 s;
  if separator_at 4 "-" s && separator_at 7 "-" s
     && (1 <=? y) && (1 <=? m) && (m <=? 12)
     && (1 <=? d) && (d <=? days_in_month y m)
  then Some (mkDate y m d) else None.

(** Hour, minute, second and microsecond of [HH[:MM[:SS[.fff[fff]]]]]. *)
Definition parse_time (t : string) : option (Z * Z * Z * Z) :=
  let n := String.length t in
  h ← field 0 2 t;
  mi ← (if (n =? 2)%nat then Some 0
        else if separator_at 2 ":" t then field 3 2 t else None);
  s ← (if (n <=? 5)%nat then Some 0
       else if separator_at 5 ":" t then field 6 2 t else None);
  us ← (if (n <=? 8)%nat then Some 0
        else if separator_at 8 "." t then
          if (n =? 12)%nat then (λ ms, 1000 * ms) <$> field 9 3 t
          else if (n =? 15)%nat then field 9 6 t else None
        else None);
  if ((n =? 2) || (n =? 5) || (n =? 8) || (n =? 12) || (n =? 15))%nat
  then if (h <? 24) && (mi <? 60) && (s <? 60) then Some (h, mi, s, us)
       else None
  else None.

(** The character of a decimal digit. *)
Definition digit_char (d : Z) : ascii := ascii_of_nat (Z.to_nat (48 + d)).

Definition digits : list Z := [0; 1; 2; 3; 4; 5; 6; 7; 8; 9].

(** ["%02d"] and ["%04d"] print the digits a field was read from; checked
    on every field of two and of four digits. *)
Definition prints_two_digits : bool :=
  forallb (λ a, forallb (λ b,
    String.eqb (zfill 2 (decimal (10 * a + b)))
      (String (digit_char a) (String (digit_char b) EmptyString)))
    digits) digits.

Definition prints_four_digits : bool :=
  forallb (λ a, forallb (λ b, forallb (λ c, forallb (λ d,
    String.eqb (zfill 4 (decimal (1000 * a + 100 * b + 10 * c + d)))
      (String (digit_char a) (String (digit_char b)
         (String (digit_char c) (String (digit_char d) EmptyString)))))
    digits) digits) digits) digits.

(** Year, month and day as written at the start of a string that
    begins [YYYY-MM-DD]; no calendar check. *)
Definition extended_date (s : string) : option (Z * Z * Z) :=
  y ← field 0 4 s;
  m ← field 5 2 s;
  d ← field 8 2 s;
  if separator_at 4 "-" s && separator_at 7 "-" s
  then Some (y, m, d) else None.

Definition fromisoformat (s : string) : option datetime :=
  d ← parse_date (substring 0 10 s);
  '(h, mi, sec, us) ← (if (String.length s <=? 10)%nat then Some (0, 0, 0, 0)
                        else parse_time (substring 11 (String.length s - 11) s));
  Some (mkDatetime (d_year d) (d_month d) (d_day d) h mi sec us).

End Iso.

(** What the date of a visit day relies on in [datetime.fromisoformat]:
    a string the parser accepts that begins [YYYY-MM-DD] stands for that
    year, month and day.  Every version of the library that has the
    function reads such a string so, whatever else it accepts. *)
Definition reads_date_prefix (parse : string -> option datetime) : Prop :=
  ∀ (ts : string) (dt : datetime) (y m d : Z),
    parse ts = Some dt ->
    Iso.extended_date ts = Some (y, m, d) ->
    year dt = y /\ month dt = m /\ day dt = d.

(** ** A sample peer *)

Module Demo.

Definition obj (fields : list (string * json)) : json :=
  JObj (list_to_map fields).

Definition named (id : Z) (name : string) : json :=
  obj [("Id", JNum id); ("Name", JStr name)].

Definition slot (hour doctor clinic : string) : json :=
  obj [("FormattedVisitHour", JStr hour);
       ("Doctor", obj [("Name", JStr doctor)]);
       ("Clinic", obj [("Name", JStr clinic)])].

Definition day_group (start : string) (slots : list json) : json :=
  obj [("VisitDate", obj [("StartDateTime", JStr start)]);
       ("AvailableVisitsTermPresentation", JArr slots)].

(** The upstream order is neither sorted nor free of duplicates. *)
Definition cities : list json :=
  [named 5 "Warszawa"; named 1 "Krakow"; named 5 "Warszawa"].

Definition filters_body : json :=
  obj [("Cities", JArr cities);
       ("Services", JArr [named 2 "Internista"]);
       ("Clinics", JArr [named 9 "LX Centrum"; named 3 "LX Mokotow"])].

Definition slots_of_first_day : list json :=
  [slot "08:30" "Anna Nowak" "LX Centrum";
   slot "08:10" "Jan Kowalski" "LX Mokotow"].

Definition first_group : json :=
  day_group "2024-03-15T09:00:00" slots_of_first_day.

Definition groups : list json :=
  [first_group;
   day_group "2024-03-01T09:00:00" [slot "09:00" "Jan Kowalski" "LX Mokotow"]].

Definition terms_body : json :=
  obj [("AgregateAvailableVisitTerms", JArr groups)].

Definition error_body : json :=
  obj [("Message", JStr "Authorization has been denied for this request.")].

(** A peer that grants the token ["t0k3n"] and answers both data
    endpoints. *)
Definition serve (history : list (Request * Response)) (request : Request)
  : Response :=
  if String.eqb (req_url request) token_url
  then mkResponse 200 (Some (obj [("access_token", JStr "t0k3n")]))
  else if String.eqb (req_url request) filters_url
  then mkResponse 200 (Some filters_body)
  else if String.eqb (req_url request) terms_url
  then mkResponse 200 (Some terms_body)
  else mkResponse 404 None.

(** A peer that refuses every login. *)
Definition deny_login (history : list (Request * Response))
    (request : Request) : Response :=
  mkResponse 401 (Some error_body).

(** A peer that grants the token and refuses every data request. *)
Definition deny_data (history : list (Request * Response))
    (request : Request) : Response :=
  if String.eqb (req_url request) token_url
  then mkResponse 200 (Some (obj [("access_token", JStr "t0k3n")]))
  else mkResponse 401 (Some error_body).

Definition uuids (n : nat) : string :=
  match n with
  | 0%nat => "16fd2706-8baf-433b-82eb-8c7fada847da"
  | 1%nat => "886313e1-3b8a-4372-9b90-0c9aee199e5d"
  | 2%nat => "16fd2706-8baf-433b-82eb-8c7fada847db"
  | _ => "6ba7b810-9dad-41d1-80b4-00c04fd430c8"
  end.

Definition user_agent : string :=
  "Patient Portal; 3.20.5; 3f2504e0-4f89-41d3-9a0c-0305e82c3301; Android; 25; 9a8b7c6d-1e2f-4a3b-8c4d-5e6f7a8b9c0d".

Definition world (peer : list (Request * Response) -> Request -> Response)
  : World :=
  mkWorld peer uuids Iso.fromisoformat user_agent.

Definition api : LuxmedApi := mkLuxmedApi (mkConfig "jan" "hunter2" "pl").

Definition start : State := mkState [] 0 [].

(** The search of the running example and what it returns. *)
Definition search : M (list VisitsInDay) :=
  get_visits api 1 2 "2024-03-01" "2024-03-15" None (Some 7).

Definition found : list VisitsInDay :=
  [mkVisitsInDay "2024-03-15"
     [mkVisit (JStr "08:30") (JStr "Anna Nowak") (JStr "LX Centrum");
      mkVisit (JStr "08:10") (JStr "Jan Kowalski") (JStr "LX Mokotow")];
   mkVisitsInDay "2024-03-01"
     [mkVisit (JStr "09:00") (JStr "Jan Kowalski") (JStr "LX Mokotow")]].

(** A peer with one answer for the token endpoint and one for all the
    rest. *)
Definition answer (token data : Response)
    (history : list (Request * Response)) (request : Request) : Response :=
  if String.eqb (req_url request) token_url then token else data.

Definition grant : Response :=
  mkResponse 200 (Some (obj [("access_token", JStr "t0k3n")])).

(** Bodies with a flaw: an entry without a name, a day-group whose
    timestamp is [null], a body without the expected key. *)
Definition nameless : json := obj [("Id", JNum 2)].

Definition flawed_cities_body : json :=
  obj [("Cities", JArr [named 5 "Warszawa"; nameless; named 1 "Krakow"])].

Definition undated_group : json :=
  obj [("VisitDate", obj [("StartDateTime", JNull)]);
       ("AvailableVisitsTermPresentation",
        JArr [slot "09:00" "Jan Kowalski" "LX Mokotow"])].

Definition flawed_terms_body : json :=
  obj [("AgregateAvailableVisitTerms", JArr [first_group; undated_group])].

Definition other_body : json := obj [("Message", JStr "nothing here")].

Definition ok (body : json) : Response := mkResponse 200 (Some body).

End Demo.

(** * Properties *)

Arguments token_headers : simpl never.
Arguments bearer_headers : simpl never.
Arguments authentication_dict : simpl never.
Arguments visit_params : simpl never.
Arguments _validate_response : simpl never.
Arguments response_json : simpl never.
Arguments getitem : simpl never.
Arguments id_name_pairs : simpl never.
Arguments found_visits_of : simpl never.

(** ** Running a call, step by step *)

Lemma _get_access_token_run (self : LuxmedApi) (world : World) (st : State) :
  let rq := token_request self world (uuids_drawn st) in
  let rs := transport world (http_log st) rq in
  let out := _get_access_token self world st in
  out.1 = token_of rs /\
  http_log out.2 = appended (http_log st) (rq, rs) /\
  uuids_drawn out.2 = S (S (uuids_drawn st)).
Proof.
  unfold _get_access_token, token_of, token_request, bind, print, ask,
    _prepare_authentication_body, str_uuid4, requests_post, send, ret, lift.
  simpl.
  destruct (_validate_response _) as [[]|e]; simpl; [|done].
  done.
Qed.

Lemma _prepare_headers_run (self : LuxmedApi) (version : string)
    (world : World) (st : State) :
  let rq := token_request self world (uuids_drawn st) in
  let rs := transport world (http_log st) rq in
  let out := _prepare_headers self version world st in
  out.1 = result_bind (authorization_of rs)
            (λ a, Ok (bearer_headers self a version (_CUSTOM_USER_AGENT world))) /\
  http_log out.2 = appended (http_log st) (rq, rs) /\
  uuids_drawn out.2 = S (S (uuids_drawn st)).
Proof.
  pose proof (_get_access_token_run self world st) as (Hr & Hlog & Hn).
  unfold _prepare_headers, authorization_of, bind, lift, ask, ret.
  destruct (_get_access_token self world st) as [[tok|e] st1]; simpl in *;
    rewrite <- Hr; simpl; [|done].
  destruct (str_add _ tok); done.
Qed.

Lemma _send_request_for_filters_run (self : LuxmedApi) (params : query)
    (world : World) (st : State) :
  let rq0 := token_request self world (uuids_drawn st) in
  let rs0 := transport world (http_log st) rq0 in
  let out := _send_request_for_filters self params world st in
  uuids_drawn out.2 = S (S (uuids_drawn st)) /\
  match authorization_of rs0 with
  | Raise e =>
      out.1 = Raise e /\ http_log out.2 = (http_log st ++ [(rq0, rs0)])%list
  | Ok a =>
      let rq1 := mkRequest GET filters_url
                   (bearer_headers self a "3.0" (_CUSTOM_USER_AGENT world))
                   params None in
      let rs1 := transport world (http_log st ++ [(rq0, rs0)])%list rq1 in
      out.1 = result_bind (_validate_response rs1) (λ _, response_json rs1) /\
      http_log out.2 = (http_log st ++ [(rq0, rs0); (rq1, rs1)])%list
  end.
Proof.
  pose proof (_prepare_headers_run self "3.0" world st) as (Hr & Hlog & Hn).
  unfold _send_request_for_filters, bind, requests_get, send, lift.
  destruct (_prepare_headers self "3.0" world st) as [[headers|e] st1];
    simpl in *; destruct (authorization_of _) as [a|e']; simpl in *;
    try discriminate.
  - injection Hr as ->. rewrite Hlog. unfold appended.
    destruct (_validate_response _) as [[]|e]; simpl;
      rewrite <- ?app_assoc; done.
  - injection Hr as ->. done.
Qed.

Lemma result_bind_assoc {A B C} (r : result A) (f : A -> result B)
    (g : B -> result C) :
  result_bind (result_bind r f) g = result_bind r (λ a, result_bind (f a) g).
Proof. by destruct r. Qed.

(** Every call is one token exchange and, when the token is granted, one
    data exchange; its result is read off the last response. *)
Lemma run_exchange (self : LuxmedApi) (c : call) (world : World) (st : State) :
  let rq0 := token_request self world (uuids_drawn st) in
  let rs0 := transport world (http_log st) rq0 in
  let out := run self c world st in
  uuids_drawn out.2 = S (S (uuids_drawn st)) /\
  match authorization_of rs0 with
  | Raise e =>
      out.1 = Raise e /\ http_log out.2 = (http_log st ++ [(rq0, rs0)])%list
  | Ok a =>
      let rq1 := data_request self world c a in
      let rs1 := transport world (http_log st ++ [(rq0, rs0)])%list rq1 in
      out.1 = answer_of world c rs1 /\
      http_log out.2 = (http_log st ++ [(rq0, rs0); (rq1, rs1)])%list
  end.
Proof.
  destruct c as [|city|city|city service from_date to_date clinic doctor].
  1-3: unfold run, get_cities, get_services, get_clinics, bind, print, lift,
         ret, answer_of, normalise, data_request, endpoint, api_version,
         params_of;
       match goal with
       | |- context [_send_request_for_filters ?o ?p ?w ?s] =>
           pose proof (_send_request_for_filters_run o p w s) as [Hn H];
           destruct (_send_request_for_filters o p w s) as [r st1]
       end;
       simpl in *;
       destruct (authorization_of _) as [a|e']; simpl in *;
       destruct H as [-> Hlog];
       [ rewrite <- result_bind_assoc;
         destruct (result_bind (_validate_response _) _) as [body|e]; simpl;
         [destruct (id_name_pairs body _)|]; done
       | done ].
  unfold run, get_visits, bind, print, lift, ret, ask, requests_get, send,
    answer_of, normalise, data_request, endpoint, api_version, params_of.
  match goal with
  | |- context [_prepare_headers ?o ?v ?w ?s] =>
      pose proof (_prepare_headers_run o v w s) as (Hr & Hlog & Hn);
      destruct (_prepare_headers o v w s) as [r st1]
  end.
  simpl in *. subst r.
  destruct (authorization_of _) as [a|e']; simpl in *; [|done].
  rewrite Hlog. unfold appended. rewrite <- !app_assoc. simpl.
  destruct (_validate_response _) as [[]|e]; simpl; [|done].
  destruct (response_json _) as [body|e]; simpl; [|done].
  destruct (found_visits_of world body); done.
Qed.

(** ** Loops that append one item per element *)

Lemma for_each_appended {X Y} (body : list Y -> X -> result (list Y))
    (f : X -> result Y) :
  (∀ acc x, body acc x = result_bind (f x) (λ y, Ok (appended acc y))) ->
  ∀ (xs : list X) (acc out : list Y),
    for_each body acc xs = Ok out ->
    ∃ ys, out = (acc ++ ys)%list /\ Forall2 (λ x y, f x = Ok y) xs ys.
Proof.
  intros Hbody xs. induction xs as [|x xs IH]; intros acc out Hrun.
  - injection Hrun as <-. exists []. by rewrite app_nil_r.
  - simpl in Hrun. rewrite Hbody in Hrun.
    destruct (f x) as [y|e] eqn:Hfx; [|discriminate]. simpl in Hrun.
    destruct (IH _ _ Hrun) as (ys & -> & Hall).
    exists (y :: ys). split.
    + unfold appended. by rewrite <- app_assoc.
    + by constructor.
Qed.

Lemma getitem_at_path (v : json) (key : string) (x : json) :
  getitem v key = Ok x <-> at_path [key] v = Some x.
Proof.
  unfold getitem. simpl. destruct v; try (split; discriminate).
  destruct (fields !! key) as [y|]; simpl; split; congruence.
Qed.

Lemma getitem_at_path2 (v : json) (k1 k2 : string) (x : json) :
  result_bind (getitem v k1) (λ y, getitem y k2) = Ok x <->
  at_path [k1; k2] v = Some x.
Proof.
  unfold getitem at 1. simpl. destruct v; try (split; discriminate).
  destruct (fields !! k1) as [y|]; simpl; [|split; discriminate].
  apply (getitem_at_path y k2 x).
Qed.

Lemma id_name_Ok (entry : json) (p : json * json) :
  id_name entry = Ok p ->
  at_path ["Id"] entry = Some p.1 /\ at_path ["Name"] entry = Some p.2.
Proof.
  unfold id_name. intros H.
  destruct (getitem entry "Id") as [i|] eqn:Hi; [|discriminate].
  destruct (getitem entry "Name") as [n|] eqn:Hn; [|discriminate].
  injection H as <-. split; by apply getitem_at_path.
Qed.

Lemma id_name_pairs_array (body : json) (key : string)
    (entries : list json) (pairs : list (json * json)) :
  id_name_pairs body key = Ok pairs ->
  at_path [key] body = Some (JArr entries) ->
  Forall2 (λ entry p, at_path ["Id"] entry = Some p.1 /\
                      at_path ["Name"] entry = Some p.2) entries pairs.
Proof.
  unfold id_name_pairs. intros Hrun Harr.
  apply getitem_at_path in Harr. rewrite Harr in Hrun. simpl in Hrun.
  apply (for_each_appended _ id_name) in Hrun as (ys & -> & Hall).
  - simpl. eapply Forall2_impl; [exact Hall|]. apply id_name_Ok.
  - intros acc x. unfold id_name.
    destruct (getitem x "Id"); [|done]. simpl. by destruct (getitem x "Name").
Qed.

Lemma append_visit_visit_of (acc : list Visit) (current_visit : json) :
  append_visit acc current_visit =
  result_bind (visit_of current_visit) (λ v, Ok (appended acc v)).
Proof.
  unfold append_visit, visit_of.
  destruct (getitem current_visit "FormattedVisitHour"); [|done]. simpl.
  destruct (getitem current_visit "Doctor") as [d|]; [|done]. simpl.
  destruct (getitem d "Name"); [|done]. simpl.
  destruct (getitem current_visit "Clinic") as [c|]; [|done]. simpl.
  by destruct (getitem c "Name").
Qed.

Lemma visit_of_Ok (current_visit : json) (v : Visit) :
  visit_of current_visit = Ok v ->
  at_path ["FormattedVisitHour"] current_visit = Some (time v) /\
  at_path ["Doctor"; "Name"] current_visit = Some (doctor_name v) /\
  at_path ["Clinic"; "Name"] current_visit = Some (clinic_name v).
Proof.
  unfold visit_of. intros H.
  destruct (getitem current_visit "FormattedVisitHour") as [t|] eqn:Ht;
    [|discriminate]. simpl in H.
  destruct (getitem current_visit "Doctor") as [d|] eqn:Hd; [|discriminate].
  simpl in H.
  destruct (getitem d "Name") as [dn|] eqn:Hdn; [|discriminate]. simpl in H.
  destruct (getitem current_visit "Clinic") as [c|] eqn:Hc; [|discriminate].
  simpl in H.
  destruct (getitem c "Name") as [cn|] eqn:Hcn; [|discriminate].
  injection H as <-. simpl. split; [|split].
  - by apply getitem_at_path.
  - apply getitem_at_path2. by rewrite Hd.
  - apply getitem_at_path2. by rewrite Hc.
Qed.

Lemma append_day_day_of (world : World) (acc : list VisitsInDay)
    (group : json) :
  append_day world acc group =
  result_bind (day_of world group) (λ d, Ok (appended acc d)).
Proof.
  unfold append_day, day_of.
  destruct (getitem group "AvailableVisitsTermPresentation") as [s|]; [|done].
  simpl. destruct (iterate s) as [slots|]; [|done]. simpl.
  destruct (for_each append_visit [] slots); [|done]. simpl.
  destruct (getitem group "VisitDate") as [vd|]; [|done]. simpl.
  destruct (getitem vd "StartDateTime") as [ts|]; [|done]. simpl.
  by destruct (date_part world ts).
Qed.

Lemma date_part_Ok (world : World) (date_with_time : json) (d : string) :
  date_part world date_with_time = Ok d ->
  ∃ ts dt, date_with_time = JStr ts /\ fromisoformat world ts = Some dt /\
           d = date_str (date_of dt).
Proof.
  unfold date_part. destruct date_with_time as [| | |ts| |]; try discriminate.
  destruct (fromisoformat world ts) as [dt|] eqn:Hdt; [|discriminate].
  intros [= <-]. by exists ts, dt.
Qed.

Lemma day_of_date (world : World) (group : json) (d : VisitsInDay) :
  day_of world group = Ok d ->
  ∃ ts dt, at_path ["VisitDate"; "StartDateTime"] group = Some (JStr ts) /\
           fromisoformat world ts = Some dt /\
           date_ d = date_str (date_of dt).
Proof.
  unfold day_of. intros H.
  destruct (getitem group "AvailableVisitsTermPresentation") as [s|];
    [|discriminate]. simpl in H.
  destruct (iterate s) as [slots|]; [|discriminate]. simpl in H.
  destruct (for_each append_visit [] slots); [|discriminate]. simpl in H.
  destruct (getitem group "VisitDate") as [vd|] eqn:Hvd; [|discriminate].
  simpl in H.
  destruct (getitem vd "StartDateTime") as [v|] eqn:Hv; [|discriminate].
  simpl in H.
  destruct (date_part world v) as [date|] eqn:Hdate; [|discriminate].
  injection H as <-. simpl.
  apply date_part_Ok in Hdate as (ts & dt & -> & Hdt & ->).
  exists ts, dt. split; [|done].
  apply getitem_at_path2. by rewrite Hvd.
Qed.

Lemma day_of_visits (world : World) (group : json) (d : VisitsInDay)
    (slots : list json) :
  day_of world group = Ok d ->
  at_path ["AvailableVisitsTermPresentation"] group = Some (JArr slots) ->
  Forall2 (λ s v, visit_of s = Ok v) slots (visits d).
Proof.
  unfold day_of. intros H Hslots.
  apply getitem_at_path in Hslots. rewrite Hslots in H. simpl in H.
  destruct (for_each append_visit [] slots) as [vs|] eqn:Hvs; [|discriminate].
  simpl in H.
  destruct (getitem group "VisitDate") as [vd|]; [|discriminate]. simpl in H.
  destruct (getitem vd "StartDateTime") as [v|]; [|discriminate]. simpl in H.
  destruct (date_part world v); [|discriminate].
  injection H as <-. simpl.
  apply (for_each_appended _ visit_of) in Hvs as (ys & -> & Hall); [done|].
  apply append_visit_visit_of.
Qed.

Lemma found_visits_of_array (world : World) (body : json)
    (groups : list json) (days : list VisitsInDay) :
  found_visits_of world body = Ok days ->
  at_path ["AgregateAvailableVisitTerms"] body = Some (JArr groups) ->
  Forall2 (λ g d, day_of world g = Ok d) groups days.
Proof.
  unfold found_visits_of. intros H Hgroups.
  apply getitem_at_path in Hgroups. rewrite Hgroups in H. simpl in H.
  apply (for_each_appended _ (day_of world)) in H as (ys & -> & Hall); [done|].
  apply append_day_day_of.
Qed.

(** ** What a call that returns has seen *)

Lemma upstream_body_snoc (log : list (Request * Response)) (rq : Request)
    (rs : Response) (st : State) :
  http_log st = (log ++ [(rq, rs)])%list -> upstream_body st = json_body rs.
Proof. unfold upstream_body. intros ->. by rewrite last_snoc. Qed.

Lemma run_Ok (self : LuxmedApi) (c : call) (world : World) (st st' : State)
    (out : outcome) :
  run self c world st = (Ok out, st') ->
  ∃ body, upstream_body st' = Some body /\ normalise world c body = Ok out.
Proof.
  intros Hrun. pose proof (run_exchange self c world st) as [_ H].
  rewrite Hrun in H. simpl in H.
  destruct (authorization_of _) as [a|e]; [|by destruct H].
  destruct H as [Hout Hlog].
  rewrite (app_assoc _ [_] [_] : (_ ++ [_; _] = _)%list) in Hlog.
  rewrite (upstream_body_snoc _ _ _ _ Hlog).
  unfold answer_of in Hout.
  destruct (_validate_response _); [|discriminate]. simpl in Hout.
  unfold response_json in Hout.
  destruct (json_body _) as [body|]; [|discriminate]. simpl in Hout.
  by exists body.
Qed.

Lemma get_visits_run (self : LuxmedApi) (city_id service_id : Z)
    (from_date to_date : string) (clinic_id doctor_id : option Z)
    (world : World) (st st' : State) (days : list VisitsInDay) :
  get_visits self city_id service_id from_date to_date clinic_id doctor_id
    world st = (Ok days, st') ->
  run self (GetVisits city_id service_id from_date to_date clinic_id doctor_id)
    world st = (Ok (Days days), st').
Proof. unfold run, bind. by intros ->. Qed.

Lemma get_visits_Ok (self : LuxmedApi) (city_id service_id : Z)
    (from_date to_date : string) (clinic_id doctor_id : option Z)
    (world : World) (st st' : State) (days : list VisitsInDay) (body : json) :
  get_visits self city_id service_id from_date to_date clinic_id doctor_id
    world st = (Ok days, st') ->
  upstream_body st' = Some body ->
  found_visits_of world body = Ok days.
Proof.
  intros Hrun Hbody. apply get_visits_run, run_Ok in Hrun as (b & Hb & Hn).
  rewrite Hbody in Hb. injection Hb as <-. simpl in Hn.
  by destruct (found_visits_of world body) as [l|]; [injection Hn as ->|].
Qed.

(** ** Dates as text *)

Lemma substring_length (n m : nat) (s : string) :
  String.length (substring n m s) = Nat.min m (String.length s - n).
Proof.
  revert n m. induction s as [|c s IH]; intros [|n] [|m]; simpl;
    try reflexivity; rewrite ?IH; try lia.
  destruct (String.length s - n)%nat; reflexivity.
Qed.

Lemma field_fits (start width : nat) (s : string) (n : Z) :
  Iso.field start width s = Some n ->
  (start + width <= String.length s)%nat \/ width = 0%nat.
Proof.
  unfold Iso.field. rewrite substring_length.
  destruct (Nat.eqb_spec (Nat.min width (String.length s - start)) width);
    [|discriminate].
  intros _. lia.
Qed.

Lemma digit_of_char (c : ascii) (d : Z) :
  Iso.digit_of c = Some d -> In d Iso.digits /\ c = Iso.digit_char d.
Proof.
  destruct c as [[] [] [] [] [] [] [] []]; vm_compute; intros H;
    try discriminate; injection H as <-; (split; [|reflexivity]); tauto.
Qed.

Lemma two_digits (a b : Z) :
  In a Iso.digits -> In b Iso.digits ->
  zfill 2 (decimal (10 * a + b))
  = String (Iso.digit_char a) (String (Iso.digit_char b) EmptyString).
Proof.
  intros Ha Hb.
  assert (Iso.prints_two_digits = true) as H by (vm_compute; reflexivity).
  unfold Iso.prints_two_digits in H.
  rewrite forallb_forall in H. specialize (H a Ha).
  rewrite forallb_forall in H. specialize (H b Hb).
  by apply String.eqb_eq.
Qed.

Lemma four_digits (a b c d : Z) :
  In a Iso.digits -> In b Iso.digits -> In c Iso.digits -> In d Iso.digits ->
  zfill 4 (decimal (1000 * a + 100 * b + 10 * c + d))
  = String (Iso.digit_char a) (String (Iso.digit_char b)
      (String (Iso.digit_char c) (String (Iso.digit_char d) EmptyString))).
Proof.
  intros Ha Hb Hc Hd.
  assert (Iso.prints_four_digits = true) as H by (vm_compute; reflexivity).
  unfold Iso.prints_four_digits in H.
  rewrite forallb_forall in H. specialize (H a Ha).
  rewrite forallb_forall in H. specialize (H b Hb).
  rewrite forallb_forall in H. specialize (H c Hc).
  rewrite forallb_forall in H. specialize (H d Hd).
  by apply String.eqb_eq.
Qed.

(** A string that begins [YYYY-MM-DD] begins with the text [str] prints
    for that date. *)
Lemma extended_date_str (ts : string) (y m d : Z) :
  Iso.extended_date ts = Some (y, m, d) ->
  date_str (mkDate y m d) = slice_to 10 ts.
Proof.
  intros Hread.
  assert (10 <= String.length ts)%nat as Hlen.
  { unfold Iso.extended_date in Hread.
    destruct (Iso.field 0 4 ts); [|discriminate]. simpl in Hread.
    destruct (Iso.field 5 2 ts); [|discriminate]. simpl in Hread.
    destruct (Iso.field 8 2 ts) eqn:Hf; [|discriminate].
    apply field_fits in Hf. lia. }
  destruct ts as [|c0 [|c1 [|c2 [|c3 [|c4 [|c5 [|c6 [|c7 [|c8 [|c9 rest]]]]]]]]]];
    simpl in Hlen; try lia.
  clear Hlen. unfold Iso.extended_date, Iso.field, Iso.separator_at in Hread.
  assert (∀ s, substring 0 0 s = EmptyString) as Hnone by (by intros []).
  cbn [substring] in Hread. rewrite !Hnone in Hread.
  cbn [String.length Nat.eqb Iso.number_of String.get] in Hread.
  destruct (Iso.digit_of c0) as [y0|] eqn:H0; [|discriminate].
  destruct (Iso.digit_of c1) as [y1|] eqn:H1; [|discriminate].
  destruct (Iso.digit_of c2) as [y2|] eqn:H2; [|discriminate].
  destruct (Iso.digit_of c3) as [y3|] eqn:H3; [|discriminate].
  destruct (Iso.digit_of c5) as [m0|] eqn:H5; [|discriminate].
  destruct (Iso.digit_of c6) as [m1|] eqn:H6; [|discriminate].
  destruct (Iso.digit_of c8) as [d0|] eqn:H8; [|discriminate].
  destruct (Iso.digit_of c9) as [d1|] eqn:H9; [|discriminate].
  cbn [mbind option_bind] in Hread.
  destruct (Ascii.eqb_spec "-" c4) as [<-|]; [|discriminate].
  destruct (Ascii.eqb_spec "-" c7) as [<-|]; [|discriminate].
  injection Hread as <- <- <-.
  apply digit_of_char in H0 as [? ->], H1 as [? ->], H2 as [? ->],
    H3 as [? ->], H5 as [? ->], H6 as [? ->], H8 as [? ->], H9 as [? ->].
  unfold date_str, slice_to. cbn [d_year d_month d_day substring].
  rewrite Hnone.
  replace (10 * (10 * (10 * (10 * 0 + y0) + y1) + y2) + y3)
    with (1000 * y0 + 100 * y1 + 10 * y2 + y3) by lia.
  replace (10 * (10 * 0 + m0) + m1) with (10 * m0 + m1) by lia.
  replace (10 * (10 * 0 + d0) + d1) with (10 * d0 + d1) by lia.
  rewrite four_digits, !two_digits by done.
  reflexivity.
Qed.

Lemma substring_of_prefix (s : string) (a w n : nat) :
  (a + w <= n)%nat -> substring a w (substring 0 n s) = substring a w s.
Proof.
  revert a w n. induction s as [|c s IH]; intros a w n Hle.
  - by destruct n, a, w.
  - destruct n as [|n].
    + assert (a = 0%nat) as -> by lia. assert (w = 0%nat) as -> by lia. done.
    + destruct a as [|a]; simpl.
      * destruct w as [|w]; [done|]. f_equal. apply (IH 0%nat). lia.
      * apply IH. lia.
Qed.

Lemma field_of_prefix (s : string) (a w n : nat) :
  (a + w <= n)%nat -> Iso.field a w (substring 0 n s) = Iso.field a w s.
Proof. intros Hle. unfold Iso.field. by rewrite substring_of_prefix. Qed.

(** The reference parser keeps the contract. *)
Lemma reference_parser_reads_date_prefix : reads_date_prefix Iso.fromisoformat.
Proof.
  intros ts dt y m d Hparse Hread. unfold Iso.fromisoformat in Hparse.
  destruct (Iso.parse_date (substring 0 10 ts)) as [date|] eqn:Hdate;
    [|discriminate].
  cbn [mbind option_bind] in Hparse.
  assert (year dt = d_year date /\ month dt = d_month date
          /\ day dt = d_day date) as (-> & -> & ->).
  { destruct (_ <=? _)%nat; cbn [mbind option_bind] in Hparse.
    - by injection Hparse as <-.
    - destruct (Iso.parse_time _) as [[[[h mi] sec] us]|]; [|discriminate].
      by injection Hparse as <-. }
  unfold Iso.parse_date in Hdate. unfold Iso.extended_date in Hread.
  rewrite !field_of_prefix in Hdate by lia.
  destruct (Iso.field 0 4 ts) as [y'|]; [|discriminate].
  destruct (Iso.field 5 2 ts) as [m'|]; [|discriminate].
  destruct (Iso.field 8 2 ts) as [d'|]; [|discriminate].
  cbn [mbind option_bind] in Hdate, Hread.
  destruct (_ && _ && _ && _ && _ && _ && _) in Hdate; [|discriminate].
  destruct (_ && _) in Hread; [|discriminate].
  injection Hdate as <-. by injection Hread as <- <- <-.
Qed.

(** ** Visit search *)

(** C1.  When [get_visits] returns and the body of the search response
    holds the array [groups] under ['AgregateAvailableVisitTerms'], the
    returned list has as many entries as [groups], in their order.  The
    entry at each position carries the year, month and day of the
    datetime parsed from that group's [VisitDate.StartDateTime], printed
    as [YYYY-MM-DD]; for a timestamp that begins [YYYY-MM-DD], as
    ["2024-03-15T09:00:00"] does, that is its first ten characters. *)
Theorem C1_get_visits_days (self : LuxmedApi) (city_id service_id : Z)
    (from_date to_date : string) (clinic_id doctor_id : option Z)
    (world : World) (st st' : State) (days : list VisitsInDay)
    (body : json) (groups : list json) :
  get_visits self city_id service_id from_date to_date clinic_id doctor_id
    world st = (Ok days, st') ->
  upstream_body st' = Some body ->
  at_path ["AgregateAvailableVisitTerms"] body = Some (JArr groups) ->
  length days = length groups /\
  ∀ (i : nat) (group : json), groups !! i = Some group ->
    ∃ entry ts dt,
      days !! i = Some entry /\
      at_path ["VisitDate"; "StartDateTime"] group = Some (JStr ts) /\
      fromisoformat world ts = Some dt /\
      date_ entry = date_str (mkDate (year dt) (month dt) (day dt)) /\
      (reads_date_prefix (fromisoformat world) ->
       ∀ y m d, Iso.extended_date ts = Some (y, m, d) ->
                date_ entry = slice_to 10 ts).
Proof.
  intros Hrun Hbody Hgroups.
  pose proof (get_visits_Ok _ _ _ _ _ _ _ _ _ _ _ _ Hrun Hbody) as Hfound.
  pose proof (found_visits_of_array _ _ _ _ Hfound Hgroups) as Hall.
  split; [symmetry; by eapply Forall2_length|].
  intros i group Hi.
  destruct (Forall2_lookup_l _ _ _ _ _ Hall Hi) as (entry & Hentry & Hof).
  apply day_of_date in Hof as (ts & dt & Hts & Hdt & Hdate).
  exists entry, ts, dt. unfold date_of in Hdate.
  split; [done|]. split; [done|]. split; [done|]. split; [done|].
  intros Hcontract y m d Hread.
  destruct (Hcontract ts dt y m d Hdt Hread) as (Hy & Hm & Hd).
  rewrite Hdate, Hy, Hm, Hd. by apply extended_date_str.
Qed.

Lemma C1_get_visits_days_witness :
  Demo.search (Demo.world Demo.serve) Demo.start
  = (Ok Demo.found, (Demo.search (Demo.world Demo.serve) Demo.start).2) /\
  length Demo.found = length Demo.groups /\
  ∃ entry,
    Demo.found !! 0%nat = Some entry /\
    at_path ["VisitDate"; "StartDateTime"] Demo.first_group
    = Some (JStr "2024-03-15T09:00:00") /\
    date_ entry = slice_to 10 "2024-03-15T09:00:00".
Proof.
  assert (Hrun : Demo.search (Demo.world Demo.serve) Demo.start
    = (Ok Demo.found, (Demo.search (Demo.world Demo.serve) Demo.start).2))
    by (vm_compute; reflexivity).
  split; [exact Hrun|].
  destruct (C1_get_visits_days Demo.api 1 2 "2024-03-01" "2024-03-15" None
              (Some 7) (Demo.world Demo.serve) Demo.start _ Demo.found
              Demo.terms_body Demo.groups Hrun) as [Hlen Hat];
    [vm_compute; reflexivity | vm_compute; reflexivity |].
  split; [exact Hlen|].
  destruct (Hat 0%nat Demo.first_group eq_refl)
    as (entry & ts & dt & Hentry & Hts & _ & _ & Hprefix).
  assert (ts = "2024-03-15T09:00:00") as -> by (vm_compute in Hts; congruence).
  exists entry. split; [exact Hentry|]. split; [exact Hts|].
  apply (Hprefix reference_parser_reads_date_prefix 2024 3 15).
  vm_compute. reflexivity.
Defined.

(** C2.  When [get_visits] returns, the day returned for a group whose
    ['AvailableVisitsTermPresentation'] is the array [slots] has as many
    visits as [slots], and the visit at each position holds that slot's
    [FormattedVisitHour] as [time], [Doctor.Name] as [doctor_name] and
    [Clinic.Name] as [clinic_name]. *)
Theorem C2_get_visits_slots (self : LuxmedApi) (city_id service_id : Z)
    (from_date to_date : string) (clinic_id doctor_id : option Z)
    (world : World) (st st' : State) (days : list VisitsInDay)
    (body : json) (groups : list json) :
  get_visits self city_id service_id from_date to_date clinic_id doctor_id
    world st = (Ok days, st') ->
  upstream_body st' = Some body ->
  at_path ["AgregateAvailableVisitTerms"] body = Some (JArr groups) ->
  ∀ (i : nat) (group : json) (slots : list json),
    groups !! i = Some group ->
    at_path ["AvailableVisitsTermPresentation"] group = Some (JArr slots) ->
    ∃ day,
      days !! i = Some day /\
      length (visits day) = length slots /\
      ∀ (j : nat) (slot : json), slots !! j = Some slot ->
        ∃ visit,
          visits day !! j = Some visit /\
          at_path ["FormattedVisitHour"] slot = Some (time visit) /\
          at_path ["Doctor"; "Name"] slot = Some (doctor_name visit) /\
          at_path ["Clinic"; "Name"] slot = Some (clinic_name visit).
Proof.
  intros Hrun Hbody Hgroups i group slots Hi Hslots.
  pose proof (get_visits_Ok _ _ _ _ _ _ _ _ _ _ _ _ Hrun Hbody) as Hfound.
  pose proof (found_visits_of_array _ _ _ _ Hfound Hgroups) as Hall.
  destruct (Forall2_lookup_l _ _ _ _ _ Hall Hi) as (day & Hday & Hof).
  pose proof (day_of_visits _ _ _ _ Hof Hslots) as Hvisits.
  exists day. split; [done|]. split; [symmetry; by eapply Forall2_length|].
  intros j slot Hj.
  destruct (Forall2_lookup_l _ _ _ _ _ Hvisits Hj) as (visit & Hv & Hvo).
  exists visit. split; [done|]. by apply visit_of_Ok.
Qed.

Lemma C2_get_visits_slots_witness :
  ∃ day,
    Demo.found !! 0%nat = Some day /\
    length (visits day) = length Demo.slots_of_first_day /\
    ∀ (j : nat) (slot : json), Demo.slots_of_first_day !! j = Some slot ->
      ∃ visit,
        visits day !! j = Some visit /\
        at_path ["FormattedVisitHour"] slot = Some (time visit) /\
        at_path ["Doctor"; "Name"] slot = Some (doctor_name visit) /\
        at_path ["Clinic"; "Name"] slot = Some (clinic_name visit).
Proof.
  refine (C2_get_visits_slots Demo.api 1 2 "2024-03-01" "2024-03-15" None
            (Some 7) (Demo.world Demo.serve) Demo.start
            (Demo.search (Demo.world Demo.serve) Demo.start).2 Demo.found
            Demo.terms_body Demo.groups _ _ _
            0%nat Demo.first_group Demo.slots_of_first_day _ _);
    vm_compute; reflexivity.
Defined.

(** ** Discovery *)

(** C3.  When a discovery call returns and the body of its response holds
    the array [entries] under the key the method reads (['Cities'],
    ['Services'] or ['Clinics']), the returned list has the length of
    [entries] and, at each position, the pair of that entry's [Id] and
    [Name]. *)
Theorem C3_discovery_pairs (self : LuxmedApi) (c : call) (key : string)
    (world : World) (st st' : State) (pairs : list (json * json))
    (body : json) (entries : list json) :
  discovery_key c = Some key ->
  run self c world st = (Ok (Pairs pairs), st') ->
  upstream_body st' = Some body ->
  at_path [key] body = Some (JArr entries) ->
  length pairs = length entries /\
  ∀ (i : nat) (entry : json), entries !! i = Some entry ->
    ∃ entry_id entry_name,
      pairs !! i = Some (entry_id, entry_name) /\
      at_path ["Id"] entry = Some entry_id /\
      at_path ["Name"] entry = Some entry_name.
Proof.
  intros Hkey Hrun Hbody Hentries.
  apply run_Ok in Hrun as (b & Hb & Hn).
  rewrite Hbody in Hb. injection Hb as <-.
  assert (id_name_pairs body key = Ok pairs) as Hpairs.
  { destruct c; simpl in *; try discriminate; injection Hkey as <-;
      by destruct (id_name_pairs body _) as [l|]; [injection Hn as ->|]. }
  pose proof (id_name_pairs_array _ _ _ _ Hpairs Hentries) as Hall.
  split; [symmetry; by eapply Forall2_length|].
  intros i entry Hi.
  destruct (Forall2_lookup_l _ _ _ _ _ Hall Hi) as ([eid ename] & Hp & H1 & H2).
  by exists eid, ename.
Qed.

Lemma C3_discovery_pairs_witness :
  run Demo.api GetCities (Demo.world Demo.serve) Demo.start
  = (Ok (Pairs [(JNum 5, JStr "Warszawa"); (JNum 1, JStr "Krakow");
                (JNum 5, JStr "Warszawa")]),
     (run Demo.api GetCities (Demo.world Demo.serve) Demo.start).2) /\
  length [(JNum 5, JStr "Warszawa"); (JNum 1, JStr "Krakow");
          (JNum 5, JStr "Warszawa")] = length Demo.cities.
Proof.
  assert (Hrun : run Demo.api GetCities (Demo.world Demo.serve) Demo.start
    = (Ok (Pairs [(JNum 5, JStr "Warszawa"); (JNum 1, JStr "Krakow");
                  (JNum 5, JStr "Warszawa")]),
       (run Demo.api GetCities (Demo.world Demo.serve) Demo.start).2))
    by (vm_compute; reflexivity).
  split; [exact Hrun|].
  refine (proj1 (C3_discovery_pairs Demo.api GetCities "Cities"
                   (Demo.world Demo.serve) Demo.start _ _ Demo.filters_body
                   Demo.cities eq_refl Hrun _ _));
    vm_compute; reflexivity.
Defined.

(** ** Response validation *)

Lemma _validate_response_200 (response : Response) :
  _validate_response response = Ok tt <-> status_code response = 200.
Proof.
  unfold _validate_response.
  destruct (Z.eqb_spec (status_code response) 200) as [Heq|Hne]; simpl.
  - done.
  - split; [|done]. unfold response_json.
    by destruct (json_body response).
Qed.

Lemma _validate_response_raise (response : Response) (payload : json) :
  status_code response ≠ 200 ->
  json_body response = Some payload ->
  _validate_response response = Raise (LuxmedApiException payload).
Proof.
  intros Hne Hbody. unfold _validate_response, response_json.
  destruct (Z.eqb_spec (status_code response) 200); [done|].
  simpl. by rewrite Hbody.
Qed.

(** C4, as the code has it.  A response passes [_validate_response]
    exactly when its status is 200, whatever its body.  A response whose
    body parses to [parsed] makes it raise [LuxmedApiException parsed]
    exactly when its status is not 200, whatever else the status is.  A
    response whose body is not JSON makes it raise the decoding error of
    [response.json()] exactly when its status is not 200. *)
Theorem C4_validate_response (status : Z) (parsed : json)
    (body : option json) :
  (_validate_response (mkResponse status body) = Ok tt <-> status = 200) /\
  (_validate_response (mkResponse status (Some parsed))
   = Raise (LuxmedApiException parsed) <-> status ≠ 200) /\
  (_validate_response (mkResponse status None) = Raise JSONDecodeError
   <-> status ≠ 200).
Proof.
  split; [apply _validate_response_200|].
  split; split.
  - intros Hraise ->. discriminate.
  - intros Hne. by apply _validate_response_raise.
  - intros Hraise ->. discriminate.
  - intros Hne. unfold _validate_response. simpl.
    by destruct (Z.eqb_spec status 200).
Qed.

(** C4 as stated fails: a response with status 500 whose body is not
    JSON does not raise an error that carries a parsed body; reading the
    body fails first. *)
Lemma C4_error_without_json_body :
  _validate_response (mkResponse 500 None) = Raise JSONDecodeError /\
  ∀ payload,
    _validate_response (mkResponse 500 None)
    ≠ Raise (LuxmedApiException payload).
Proof. split; [reflexivity|]. intros payload. discriminate. Qed.

(** ** Authentication and the order of the exchanges *)

Lemma authorization_of_granted (response : Response) (a : string) :
  authorization_of response = Ok a <->
  ∃ access_token, granted response access_token /\
                  a = "Bearer " ++ access_token.
Proof.
  unfold authorization_of, token_of, granted. split.
  - intros H.
    destruct (_validate_response response) as [[]|] eqn:Hv; [|discriminate].
    apply _validate_response_200 in Hv. simpl in H.
    unfold response_json in H.
    destruct (json_body response) as [body|]; [|discriminate]. simpl in H.
    destruct (getitem body "access_token") as [v|] eqn:Hget; [|discriminate].
    simpl in H. destruct v as [| | |tok| |]; try discriminate.
    injection H as <-. exists tok. split; [|done].
    split; [done|]. exists body. split; [done|]. by apply getitem_at_path.
  - intros (tok & (Hstatus & body & Hbody & Htok) & ->).
    apply _validate_response_200 in Hstatus. rewrite Hstatus. simpl.
    unfold response_json. rewrite Hbody. simpl.
    apply getitem_at_path in Htok. by rewrite Htok.
Qed.

(** C8, as the code has it.  Every call sends one [POST] to the token
    endpoint first.  When that response grants a token, exactly one [GET]
    to the endpoint of the call follows, with the token just granted in
    its [Authorization] header; when it does not, nothing follows and the
    call raises. *)
Theorem C8_round_trips (self : LuxmedApi) (c : call) (world : World)
    (st : State) :
  let out := run self c world st in
  ∃ rq0 rs0,
    rs0 = transport world (http_log st) rq0 /\
    req_method rq0 = POST /\ req_url rq0 = token_url /\
    (∀ access_token, granted rs0 access_token ->
       ∃ rq1 rs1,
         http_log out.2 = (http_log st ++ [(rq0, rs0); (rq1, rs1)])%list /\
         rs1 = transport world (http_log st ++ [(rq0, rs0)])%list rq1 /\
         req_method rq1 = GET /\ req_url rq1 = endpoint c /\
         req_headers rq1 !! "Authorization"
         = Some ("Bearer " ++ access_token)) /\
    ((∀ access_token, ¬ granted rs0 access_token) ->
       http_log out.2 = (http_log st ++ [(rq0, rs0)])%list /\
       ∃ e, out.1 = Raise e).
Proof.
  intros out. pose proof (run_exchange self c world st) as [_ H].
  simpl in H. fold out in H.
  exists (token_request self world (uuids_drawn st)), (transport world
    (http_log st) (token_request self world (uuids_drawn st))).
  split; [done|]. split; [done|]. split; [done|].
  destruct (authorization_of _) as [a|e] eqn:Hauth.
  - destruct H as [Hout Hlog].
    apply authorization_of_granted in Hauth as (tok & Hgranted & ->).
    split; [|intros Hnone; by destruct (Hnone tok)].
    intros tok' Hgranted'.
    assert (tok' = tok) as ->.
    { destruct Hgranted as (_ & b & Hb & Ht), Hgranted' as (_ & b' & Hb' & Ht').
      congruence. }
    eexists _, _. split; [exact Hlog|]. split; [done|]. split; [done|].
    split; [done|]. unfold data_request, bearer_headers. simpl.
    apply lookup_insert_eq.
  - destruct H as [Hout Hlog]. split.
    + intros tok Hgranted.
      assert (authorization_of
                (transport world (http_log st)
                   (token_request self world (uuids_drawn st)))
              = Ok ("Bearer " ++ tok)) as Hok
        by (apply authorization_of_granted; by exists tok).
      congruence.
    + intros _. split; [done|]. by exists e.
Qed.

(** C8 as stated fails: when the login is refused, the call ends after
    the token exchange and no data request is sent. *)
Lemma C8_refused_login_sends_no_data_request :
  let out := run Demo.api GetCities (Demo.world Demo.deny_login) Demo.start in
  out.1 = Raise (LuxmedApiException Demo.error_body) /\
  (λ x, (req_method x.1, req_url x.1)) <$> http_log out.2
  = [(POST, token_url)].
Proof. vm_compute. done. Qed.

Lemma C8_round_trips_witness :
  let out := run Demo.api GetCities (Demo.world Demo.serve) Demo.start in
  (λ x, (req_method x.1, req_url x.1)) <$> http_log out.2
  = [(POST, token_url); (GET, filters_url)].
Proof.
  intros out.
  destruct (C8_round_trips Demo.api GetCities (Demo.world Demo.serve)
              Demo.start)
    as (rq0 & rs0 & Hrs0 & Hpost & Hurl & Hgranted & _).
  destruct (Hgranted "t0k3n") as (rq1 & rs1 & Hlog & _ & Hget & Hurl1 & _).
  { rewrite Hrs0. unfold Demo.world, Demo.serve. simpl. rewrite Hurl.
    vm_compute. split; [done|]. eexists. split; reflexivity. }
  fold out in Hlog. rewrite Hlog. simpl.
  by rewrite Hpost, Hurl, Hget, Hurl1.
Defined.

(** ** The exception raised on a refusal *)

(** C7, as the code has it.  There is one exception class.  Whichever
    endpoint answered last, the token endpoint or a data endpoint, a status
    other than 200 makes the call raise: [LuxmedApiException] with the
    parsed body of that response, or, when that body is not JSON, the
    decoding error of [response.json()]. *)
Theorem C7_one_exception_class (self : LuxmedApi) (c : call) (world : World)
    (st : State) (rq : Request) (rs : Response) :
  last (http_log (run self c world st).2) = Some (rq, rs) ->
  status_code rs ≠ 200 ->
  (run self c world st).1
  = Raise (match json_body rs with
           | Some payload => LuxmedApiException payload
           | None => JSONDecodeError
           end).
Proof.
  intros Hlast Hstatus.
  assert (_validate_response rs
          = Raise (match json_body rs with
                   | Some payload => LuxmedApiException payload
                   | None => JSONDecodeError
                   end)) as Hraise.
  { unfold _validate_response, response_json.
    destruct (Z.eqb_spec (status_code rs) 200); [done|]. simpl.
    by destruct (json_body rs). }
  pose proof (run_exchange self c world st) as [_ H]. simpl in H.
  destruct (authorization_of _) as [a|e] eqn:Hauth; destruct H as [Hout Hlog];
    rewrite Hlog in Hlast.
  - rewrite (app_assoc _ [_] [_] : (_ ++ [_; _] = _)%list) in Hlast.
    rewrite last_snoc in Hlast. injection Hlast as <- <-.
    rewrite Hout. unfold answer_of. by rewrite Hraise.
  - rewrite last_snoc in Hlast. injection Hlast as <- <-.
    rewrite Hout. unfold authorization_of, token_of in Hauth.
    rewrite Hraise in Hauth. simpl in Hauth. congruence.
Qed.

Lemma C7_one_exception_class_witness :
  (run Demo.api (GetClinics 1) (Demo.world Demo.deny_data) Demo.start).1
  = Raise (LuxmedApiException Demo.error_body).
Proof.
  refine (C7_one_exception_class Demo.api (GetClinics 1)
            (Demo.world Demo.deny_data) Demo.start
            (data_request Demo.api (Demo.world Demo.deny_data) (GetClinics 1)
               "Bearer t0k3n")
            (mkResponse 401 (Some Demo.error_body)) _ _).
  - vm_compute. reflexivity.
  - simpl. lia.
Defined.

(** C7 as stated fails: a refusal by the token endpoint and a refusal by
    a data endpoint raise the very same exception; no second class tells
    an authentication failure from a data failure. *)
Lemma C7_refusals_raise_the_same_exception :
  let login := run Demo.api GetCities (Demo.world Demo.deny_login) Demo.start in
  let data := run Demo.api GetCities (Demo.world Demo.deny_data) Demo.start in
  (req_url ∘ fst) <$> last (http_log login.2) = Some token_url /\
  (req_url ∘ fst) <$> last (http_log data.2) = Some filters_url /\
  login.1 = Raise (LuxmedApiException Demo.error_body) /\
  data.1 = login.1.
Proof. vm_compute. done. Qed.

(** ** Protocol versions *)

Lemma token_url_is_no_data_url :
  token_url ≠ filters_url /\ token_url ≠ terms_url /\ filters_url ≠ terms_url.
Proof. repeat split; apply String.eqb_neq; vm_compute; reflexivity. Qed.

Lemma version_ok_token_request (self : LuxmedApi) (world : World) (n : nat) :
  version_ok (token_request self world n).
Proof.
  destruct token_url_is_no_data_url as (H1 & H2 & _).
  unfold version_ok, token_request. simpl. split; intros H; by rewrite H in *.
Qed.

Lemma version_ok_data_request (self : LuxmedApi) (world : World) (c : call)
    (a : string) :
  version_ok (data_request self world c a).
Proof.
  destruct token_url_is_no_data_url as (_ & _ & H3).
  unfold version_ok, data_request, bearer_headers. simpl.
  rewrite lookup_insert_ne by done. rewrite lookup_insert_eq.
  destruct c; simpl; split; intros H; try done; by rewrite H in *.
Qed.

Lemma run_version_ok (self : LuxmedApi) (c : call) (world : World)
    (st : State) :
  Forall (λ x, version_ok x.1) (http_log st) ->
  Forall (λ x, version_ok x.1) (http_log (run self c world st).2).
Proof.
  intros Hold. pose proof (run_exchange self c world st) as [_ H].
  simpl in H.
  destruct (authorization_of _) as [a|e]; destruct H as [_ ->];
    apply Forall_app; (split; [done|]);
    apply Forall_cons; (split; [apply version_ok_token_request|]);
    [|by apply Forall_nil].
  apply Forall_cons. split; [apply version_ok_data_request|].
  by apply Forall_nil.
Qed.

(** C6.  Whatever calls a caller makes, every request that has gone to
    the reservation-filter endpoint carries [Api-Version] ["3.0"] and
    every request that has gone to the available-terms endpoint carries
    ["2.0"]. *)
Theorem C6_api_versions (self : LuxmedApi) (calls : list call)
    (world : World) (drawn : nat) (lines : list string) :
  Forall (λ x, version_ok x.1)
    (http_log (session self calls world (mkState [] drawn lines))).
Proof.
  assert (∀ st, Forall (λ x, version_ok x.1) (http_log st) ->
                Forall (λ x, version_ok x.1)
                  (http_log (session self calls world st))) as Hinv.
  { induction calls as [|c calls IH]; intros st Hst; [done|].
    simpl. apply IH. by apply run_version_ok. }
  apply Hinv. constructor.
Qed.

Lemma C6_api_versions_example :
  let calls := [GetCities;
                GetVisits 1 2 "2024-03-01" "2024-03-15" None (Some 7)] in
  let st := session Demo.api calls (Demo.world Demo.serve) Demo.start in
  (λ x, (req_url x.1, req_headers x.1 !! "Api-Version")) <$> http_log st
  = [(token_url, Some "2.0"); (filters_url, Some "3.0");
     (token_url, Some "2.0"); (terms_url, Some "2.0")] /\
  Forall (λ x, version_ok x.1) (http_log st).
Proof.
  split; [vm_compute; reflexivity|].
  apply (C6_api_versions Demo.api _ (Demo.world Demo.serve) 0 []).
Defined.

(** ** The authentication body *)

Lemma slice_to_length (n : nat) (s : string) :
  (String.length (slice_to n s) <= n)%nat.
Proof.
  unfold slice_to. revert s. induction n as [|n IH]; intros [|c s]; simpl;
    try lia.
  specialize (IH s). lia.
Qed.

(** C9, as the code has it.  Two authentications in a row send two
    [POST] bodies.  Each [account_id] is the first 35 characters of a UUID
    drawn for it, so at most 35 characters long, and each [client_id] is
    a further UUID drawn for it: four draws in all, none used twice.  The
    two [client_id] differ when their UUIDs differ; the two [account_id]
    differ when their UUIDs differ within the first 35 characters. *)
Theorem C9_authentication_bodies (self : LuxmedApi) (world : World)
    (st : State) :
  let first := _get_access_token self world st in
  let second := _get_access_token self world first.2 in
  let n := uuids_drawn st in
  ∃ rq1 rs1 rq2 rs2 body1 body2 account1 account2,
    http_log second.2 = (http_log st ++ [(rq1, rs1); (rq2, rs2)])%list /\
    req_data rq1 = Some body1 /\ req_data rq2 = Some body2 /\
    body1 !! "account_id" = Some account1 /\
    body2 !! "account_id" = Some account2 /\
    account1 = slice_to 35 (uuid4 world n) /\
    account2 = slice_to 35 (uuid4 world (2 + n)) /\
    (String.length account1 <= 35)%nat /\
    (String.length account2 <= 35)%nat /\
    body1 !! "client_id" = Some (uuid4 world (1 + n)) /\
    body2 !! "client_id" = Some (uuid4 world (3 + n)) /\
    (slice_to 35 (uuid4 world n) ≠ slice_to 35 (uuid4 world (2 + n)) ->
     body1 !! "account_id" ≠ body2 !! "account_id") /\
    (uuid4 world (1 + n) ≠ uuid4 world (3 + n) ->
     body1 !! "client_id" ≠ body2 !! "client_id").
Proof.
  intros first second n.
  pose proof (_get_access_token_run self world st) as (_ & Hlog1 & Hn1).
  pose proof (_get_access_token_run self world first.2) as (_ & Hlog2 & Hn2).
  simpl in *. fold first in Hlog1, Hn1, Hlog2, Hn2. fold second in Hlog2, Hn2.
  rewrite Hlog1, Hn1 in Hlog2. fold n in Hlog2.
  unfold appended in Hlog2. rewrite <- app_assoc in Hlog2. simpl in Hlog2.
  eexists _, _, _, _, _, _, _, _.
  split; [exact Hlog2|]. unfold token_request. simpl.
  split; [reflexivity|]. split; [reflexivity|].
  assert (∀ a b, authentication_dict self a b !! "account_id" = Some a) as Ha.
  { intros a b. unfold authentication_dict. by simplify_map_eq. }
  assert (∀ a b, authentication_dict self a b !! "client_id" = Some b) as Hc.
  { intros a b. unfold authentication_dict. by simplify_map_eq. }
  rewrite !Ha, !Hc.
  split; [reflexivity|]. split; [reflexivity|].
  split; [reflexivity|]. split; [reflexivity|].
  split; [apply slice_to_length|]. split; [apply slice_to_length|].
  split; [reflexivity|]. split; [reflexivity|].
  split; congruence.
Qed.

Lemma C9_authentication_bodies_witness :
  let w := Demo.world Demo.serve in
  let first := _get_access_token Demo.api w Demo.start in
  let second := _get_access_token Demo.api w first.2 in
  (λ x, req_data x.1 ≫= (.!! "client_id")) <$> http_log second.2
  = [Some "886313e1-3b8a-4372-9b90-0c9aee199e5d";
     Some "6ba7b810-9dad-41d1-80b4-00c04fd430c8"].
Proof.
  intros w first second.
  destruct (C9_authentication_bodies Demo.api w Demo.start)
    as (rq1 & rs1 & rq2 & rs2 & body1 & body2 & account1 & account2 & Hlog
        & Hb1 & Hb2 & _ & _ & _ & _ & _ & _ & Hc1 & Hc2 & _ & _).
  fold first second in Hlog. rewrite Hlog. simpl.
  rewrite Hb1, Hb2. simpl. rewrite Hc1, Hc2. reflexivity.
Defined.

(** C9 as stated fails: two version-4 UUIDs that differ in their last
    digit only are cut to the same [account_id], so two authentications in
    a row can send the same one. *)
Lemma C9_consecutive_account_ids_can_coincide :
  let w := Demo.world Demo.serve in
  let first := _get_access_token Demo.api w Demo.start in
  let second := _get_access_token Demo.api w first.2 in
  uuid4 w 0 ≠ uuid4 w 2 /\
  (λ x, req_data x.1 ≫= (.!! "account_id")) <$> http_log second.2
  = [Some "16fd2706-8baf-433b-82eb-8c7fada847d";
     Some "16fd2706-8baf-433b-82eb-8c7fada847d"].
Proof.
  split.
  - apply String.eqb_neq. vm_compute. reflexivity.
  - vm_compute. reflexivity.
Qed.

(** ** The filters of a visit search *)

(** C10.  Two searches that differ in [doctor_id] only run alike: same
    result, same requests with the same parameters and headers, same
    state afterwards. *)
Theorem C10_doctor_id_is_ignored (self : LuxmedApi) (city_id service_id : Z)
    (from_date to_date : string) (clinic_id doctor_id doctor_id' : option Z)
    (world : World) (st : State) :
  get_visits self city_id service_id from_date to_date clinic_id doctor_id
    world st
  = get_visits self city_id service_id from_date to_date clinic_id doctor_id'
      world st.
Proof. reflexivity. Qed.

Lemma visit_params_dom (city_id service_id clinic_id from_date to_date : pyval) :
  dom (visit_params city_id service_id clinic_id from_date to_date)
  = ({["filter.cityId"; "filter.serviceId"; "filter.clinicId";
       "filter.fromDate"; "filter.toDate"]} : gset string).
Proof.
  unfold visit_params. rewrite !dom_insert_L, dom_empty_L. set_solver.
Qed.

(** The keys of the search request, for every search that gets its
    token: the five filters of the dict literal, [filter.clinicId] with
    [None] when the caller left it unset, and no key for the doctor. *)
Lemma get_visits_params (self : LuxmedApi) (city_id service_id : Z)
    (from_date to_date : string) (clinic_id doctor_id : option Z)
    (world : World) (st : State) (access_token : string) :
  let out := run self (GetVisits city_id service_id from_date to_date
                         clinic_id doctor_id) world st in
  granted (transport world (http_log st)
             (token_request self world (uuids_drawn st))) access_token ->
  ∃ rq rs d,
    last (http_log out.2) = Some (rq, rs) /\
    req_url rq = terms_url /\
    req_params rq = QDict d /\
    d = visit_params (PInt city_id) (PInt service_id) (optional_int clinic_id)
          (PStr from_date) (PStr to_date) /\
    d !! "filter.clinicId" = Some (optional_int clinic_id) /\
    d !! "filter.doctorId" = None.
Proof.
  intros out Hgranted.
  pose proof (run_exchange self (GetVisits city_id service_id from_date to_date
                                   clinic_id doctor_id) world st) as [_ H].
  cbv zeta in H. fold out in H.
  assert (authorization_of
            (transport world (http_log st)
               (token_request self world (uuids_drawn st)))
          = Ok ("Bearer " ++ access_token)) as Hok
    by (apply authorization_of_granted; by exists access_token).
  rewrite Hok in H. destruct H as [_ Hlog].
  rewrite (app_assoc _ [_] [_] : (_ ++ [_; _] = _)%list) in Hlog.
  eexists _, _, _. rewrite Hlog, last_snoc.
  split; [reflexivity|]. split; [reflexivity|]. split; [reflexivity|].
  split; [reflexivity|]. unfold visit_params. by simplify_map_eq.
Qed.

(** C5 at a search for doctor 7 with no clinic chosen: the request holds
    [filter.clinicId] with [None], as the claim says, but its five keys
    do not include the doctor, and no value in it is 7. *)
Theorem C5_doctor_id_is_not_sent :
  let out := Demo.search (Demo.world Demo.serve) Demo.start in
  let d := visit_params (PInt 1) (PInt 2) PNone (PStr "2024-03-01")
             (PStr "2024-03-15") in
  (λ x, (req_url x.1, req_params x.1)) <$> last (http_log out.2)
  = Some (terms_url, QDict d) /\
  dom d = ({["filter.cityId"; "filter.serviceId"; "filter.clinicId";
             "filter.fromDate"; "filter.toDate"]} : gset string) /\
  d !! "filter.clinicId" = Some PNone /\
  ∀ (key : string) (value : pyval), d !! key = Some value -> value ≠ PInt 7.
Proof.
  split; [vm_compute; reflexivity|].
  split; [apply visit_params_dom|].
  split; [unfold visit_params; by simplify_map_eq|].
  intros key value H. unfold visit_params in H.
  repeat (apply lookup_insert_Some in H as [[_ <-]|[_ H]]; [discriminate|]).
  by rewrite lookup_empty in H.
Qed.

(** * Further properties of the code *)

(** ** A call, by the two responses it gets *)

Lemma run_granted (self : LuxmedApi) (c : call) (world : World) (st : State)
    (access_token : string) :
  granted (token_response self world st) access_token ->
  (run self c world st).1
  = answer_of world c (data_response self world st c access_token) /\
  http_log (run self c world st).2
  = (http_log st
     ++ [(token_request self world (uuids_drawn st),
          token_response self world st);
         (data_request self world c ("Bearer " ++ access_token),
          data_response self world st c access_token)])%list.
Proof.
  intros Hgranted.
  pose proof (run_exchange self c world st) as [_ H]. cbv zeta in H.
  fold (token_response self world st) in H.
  assert (authorization_of (token_response self world st)
          = Ok ("Bearer " ++ access_token)) as Hok
    by (apply authorization_of_granted; by exists access_token).
  rewrite Hok in H. exact H.
Qed.

Lemma run_refused (self : LuxmedApi) (c : call) (world : World) (st : State)
    (e : exn) :
  authorization_of (token_response self world st) = Raise e ->
  (run self c world st).1 = Raise e /\
  http_log (run self c world st).2
  = (http_log st ++ [(token_request self world (uuids_drawn st),
                      token_response self world st)])%list.
Proof.
  intros Hraise.
  pose proof (run_exchange self c world st) as [_ H]. cbv zeta in H.
  fold (token_response self world st) in H.
  rewrite Hraise in H. exact H.
Qed.

Lemma run_answer (self : LuxmedApi) (c : call) (world : World) (st : State)
    (access_token : string) (body : json) :
  granted (token_response self world st) access_token ->
  status_code (data_response self world st c access_token) = 200 ->
  json_body (data_response self world st c access_token) = Some body ->
  (run self c world st).1 = normalise world c body.
Proof.
  intros Hgranted Hstatus Hbody.
  destruct (run_granted self c world st access_token Hgranted) as [-> _].
  unfold answer_of. apply _validate_response_200 in Hstatus.
  rewrite Hstatus. simpl. unfold response_json. by rewrite Hbody.
Qed.

(** ** Loops: all items, or the first failure *)

Lemma for_each_all {X Y} (body : list Y -> X -> result (list Y))
    (f : X -> result Y) :
  (∀ acc x, body acc x = result_bind (f x) (λ y, Ok (appended acc y))) ->
  ∀ (xs : list X) (ys acc : list Y),
    Forall2 (λ x y, f x = Ok y) xs ys ->
    for_each body acc xs = Ok (acc ++ ys)%list.
Proof.
  intros Hbody xs ys acc Hall. revert acc.
  induction Hall as [|x y xs ys Hxy _ IH]; intros acc; simpl.
  - by rewrite app_nil_r.
  - rewrite Hbody, Hxy. simpl. rewrite IH. unfold appended.
    by rewrite <- app_assoc.
Qed.

Lemma for_each_first_failure {X Y} (body : list Y -> X -> result (list Y))
    (f : X -> result Y) :
  (∀ acc x, body acc x = result_bind (f x) (λ y, Ok (appended acc y))) ->
  ∀ (good : list X) (ys : list Y) (bad : X) (rest : list X) (e : exn)
    (acc : list Y),
    Forall2 (λ x y, f x = Ok y) good ys ->
    f bad = Raise e ->
    for_each body acc (good ++ bad :: rest) = Raise e.
Proof.
  intros Hbody good ys bad rest e acc Hall Hbad. revert acc.
  induction Hall as [|x y xs ys' Hxy _ IH]; intros acc; simpl.
  - by rewrite Hbody, Hbad.
  - rewrite Hbody, Hxy. simpl. apply IH.
Qed.

Lemma id_name_pairs_body (acc : list (json * json)) (entry : json) :
  (let? entry_id := getitem entry "Id" in
   let? entry_name := getitem entry "Name" in
   Ok (appended acc (entry_id, entry_name)))%result
  = result_bind (id_name entry) (λ p, Ok (appended acc p)).
Proof.
  unfold id_name. destruct (getitem entry "Id"); [|done]. simpl.
  by destruct (getitem entry "Name").
Qed.

Lemma entry_matches_id_name (entry : json) (p : json * json) :
  entry_matches entry p -> id_name entry = Ok p.
Proof.
  intros [Hid Hname]. unfold id_name.
  apply getitem_at_path in Hid, Hname. rewrite Hid, Hname. by destruct p.
Qed.

Lemma slot_matches_visit_of (slot : json) (visit : Visit) :
  slot_matches slot visit -> visit_of slot = Ok visit.
Proof.
  intros (Ht & Hd & Hc). unfold visit_of.
  apply getitem_at_path in Ht. rewrite Ht. simpl.
  apply getitem_at_path2 in Hd, Hc.
  destruct (getitem slot "Doctor") as [d|]; [|discriminate]. simpl in *.
  rewrite Hd. simpl.
  destruct (getitem slot "Clinic") as [c|]; [|discriminate]. simpl in *.
  rewrite Hc. simpl. by destruct visit.
Qed.

Lemma day_matches_day_of (world : World) (group : json) (day : VisitsInDay) :
  day_matches world group day -> day_of world group = Ok day.
Proof.
  intros (slots & ts & dt & Hslots & Hall & Hts & Hdt & Hdate).
  unfold day_of. apply getitem_at_path in Hslots. rewrite Hslots. simpl.
  rewrite (for_each_all _ visit_of append_visit_visit_of slots (visits day)).
  2: { eapply Forall2_impl; [exact Hall|]. apply slot_matches_visit_of. }
  simpl. apply getitem_at_path2 in Hts.
  destruct (getitem group "VisitDate") as [vd|]; [|discriminate].
  simpl in *. rewrite Hts. simpl. rewrite Hdt. simpl.
  rewrite <- Hdate. by destruct day.
Qed.

Lemma id_name_pairs_all (body : json) (key : string) (entries : list json)
    (pairs : list (json * json)) :
  at_path [key] body = Some (JArr entries) ->
  Forall2 entry_matches entries pairs ->
  id_name_pairs body key = Ok pairs.
Proof.
  intros Hentries Hall. unfold id_name_pairs.
  apply getitem_at_path in Hentries. rewrite Hentries. simpl.
  rewrite (for_each_all _ id_name id_name_pairs_body entries pairs); [done|].
  eapply Forall2_impl; [exact Hall|]. apply entry_matches_id_name.
Qed.

Lemma found_visits_of_all (world : World) (body : json) (groups : list json)
    (days : list VisitsInDay) :
  at_path ["AgregateAvailableVisitTerms"] body = Some (JArr groups) ->
  Forall2 (day_matches world) groups days ->
  found_visits_of world body = Ok days.
Proof.
  intros Hgroups Hall. unfold found_visits_of.
  apply getitem_at_path in Hgroups. rewrite Hgroups. simpl.
  rewrite (for_each_all _ (day_of world) (append_day_day_of world) groups days);
    [done|].
  eapply Forall2_impl; [exact Hall|]. apply day_matches_day_of.
Qed.

(** ** Calls that return *)

(** X1.  A discovery call returns whenever the token is granted, the data
    response has status 200 and its body holds, under the key of the
    method, an array whose entries all have [Id] and [Name]: it returns
    exactly their pairs. *)
Theorem X1_discovery_returns (self : LuxmedApi) (c : call) (key : string)
    (world : World) (st : State) (access_token : string) (body : json)
    (entries : list json) (pairs : list (json * json)) :
  discovery_key c = Some key ->
  granted (token_response self world st) access_token ->
  status_code (data_response self world st c access_token) = 200 ->
  json_body (data_response self world st c access_token) = Some body ->
  at_path [key] body = Some (JArr entries) ->
  Forall2 entry_matches entries pairs ->
  (run self c world st).1 = Ok (Pairs pairs).
Proof.
  intros Hkey Hgranted Hstatus Hbody Hentries Hall.
  rewrite (run_answer _ _ _ _ _ _ Hgranted Hstatus Hbody).
  pose proof (id_name_pairs_all _ _ _ _ Hentries Hall) as Hpairs.
  destruct c; simpl in *; try discriminate; injection Hkey as <-;
    by rewrite Hpairs.
Qed.

Lemma X1_discovery_returns_witness :
  (run Demo.api (GetClinics 1) (Demo.world Demo.serve) Demo.start).1
  = Ok (Pairs [(JNum 9, JStr "LX Centrum"); (JNum 3, JStr "LX Mokotow")]).
Proof.
  refine (X1_discovery_returns Demo.api (GetClinics 1) "Clinics"
            (Demo.world Demo.serve) Demo.start "t0k3n" Demo.filters_body
            [Demo.named 9 "LX Centrum"; Demo.named 3 "LX Mokotow"] _
            eq_refl _ _ _ _ _).
  - split; [reflexivity|]. eexists. split; vm_compute; reflexivity.
  - reflexivity.
  - vm_compute; reflexivity.
  - vm_compute; reflexivity.
  - repeat constructor; vm_compute; reflexivity.
Defined.

(** X2.  A visit search returns whenever the token is granted, the data
    response has status 200 and its body holds an array of day-groups,
    each with an array of slots that all have their three fields and with
    a string timestamp the parser accepts: it returns one day per group,
    with the visits of its slots. *)
Theorem X2_get_visits_returns (self : LuxmedApi) (city_id service_id : Z)
    (from_date to_date : string) (clinic_id doctor_id : option Z)
    (world : World) (st : State) (access_token : string) (body : json)
    (groups : list json) (days : list VisitsInDay) :
  let c := GetVisits city_id service_id from_date to_date clinic_id
             doctor_id in
  granted (token_response self world st) access_token ->
  status_code (data_response self world st c access_token) = 200 ->
  json_body (data_response self world st c access_token) = Some body ->
  at_path ["AgregateAvailableVisitTerms"] body = Some (JArr groups) ->
  Forall2 (day_matches world) groups days ->
  (get_visits self city_id service_id from_date to_date clinic_id doctor_id
     world st).1 = Ok days.
Proof.
  intros c Hgranted Hstatus Hbody Hgroups Hall.
  pose proof (run_answer _ _ _ _ _ _ Hgranted Hstatus Hbody) as Hrun.
  unfold c, normalise in Hrun.
  rewrite (found_visits_of_all _ _ _ _ Hgroups Hall) in Hrun.
  unfold run, bind, ret in Hrun. simpl in Hrun.
  destruct (get_visits _ _ _ _ _ _ _ _ _) as [[l|e] st1]; simpl in *;
    congruence.
Qed.

Lemma X2_get_visits_returns_witness :
  (Demo.search (Demo.world Demo.serve) Demo.start).1 = Ok Demo.found.
Proof.
  refine (X2_get_visits_returns Demo.api 1 2 "2024-03-01" "2024-03-15" None
            (Some 7) (Demo.world Demo.serve) Demo.start "t0k3n"
            Demo.terms_body Demo.groups Demo.found _ _ _ _ _).
  - split; [reflexivity|]. eexists. split; vm_compute; reflexivity.
  - reflexivity.
  - vm_compute; reflexivity.
  - vm_compute; reflexivity.
  - constructor; [|constructor; [|constructor]].
    + exists Demo.slots_of_first_day, "2024-03-15T09:00:00",
        (mkDatetime 2024 3 15 9 0 0 0).
      repeat split; try (vm_compute; reflexivity).
      repeat (constructor; [repeat split; vm_compute; reflexivity|]).
      constructor.
    + exists [Demo.slot "09:00" "Jan Kowalski" "LX Mokotow"],
        "2024-03-01T09:00:00", (mkDatetime 2024 3 1 9 0 0 0).
      repeat split; try (vm_compute; reflexivity).
      repeat (constructor; [repeat split; vm_compute; reflexivity|]).
      constructor.
Defined.

(** ** Calls that raise on a malformed body *)

Lemma id_name_raise (entry : json) :
  at_path ["Id"] entry = None \/ at_path ["Name"] entry = None ->
  id_name entry
  = Raise (match entry with
           | JObj fields =>
               match fields !! "Id" with
               | Some _ => KeyError "Name"
               | None => KeyError "Id"
               end
           | _ => TypeError
           end).
Proof.
  unfold id_name, getitem. simpl.
  destruct entry as [| | | | |fields]; try done.
  destruct (fields !! "Id"); simpl; [|done].
  destruct (fields !! "Name"); simpl; [|done].
  by intros [|].
Qed.

(** X3.  A discovery call returns nothing for an array with an entry that
    lacks [Id] or [Name], however many good entries come before it: it
    raises for the first such entry, [TypeError] if the entry is no JSON
    object, else [KeyError] for ['Id'] or, when only the name is missing,
    for ['Name']. *)
Theorem X3_discovery_first_bad_entry (self : LuxmedApi) (c : call)
    (key : string) (world : World) (st : State) (access_token : string)
    (body : json) (good : list json) (pairs : list (json * json))
    (bad : json) (rest : list json) :
  discovery_key c = Some key ->
  granted (token_response self world st) access_token ->
  status_code (data_response self world st c access_token) = 200 ->
  json_body (data_response self world st c access_token) = Some body ->
  at_path [key] body = Some (JArr (good ++ bad :: rest)) ->
  Forall2 entry_matches good pairs ->
  at_path ["Id"] bad = None \/ at_path ["Name"] bad = None ->
  (run self c world st).1
  = Raise (match bad with
           | JObj fields =>
               match fields !! "Id" with
               | Some _ => KeyError "Name"
               | None => KeyError "Id"
               end
           | _ => TypeError
           end).
Proof.
  intros Hkey Hgranted Hstatus Hbody Hentries Hgood Hbad.
  rewrite (run_answer _ _ _ _ _ _ Hgranted Hstatus Hbody).
  assert (id_name_pairs body key = Raise (match bad with
           | JObj fields =>
               match fields !! "Id" with
               | Some _ => KeyError "Name"
               | None => KeyError "Id"
               end
           | _ => TypeError
           end)) as Hpairs.
  { unfold id_name_pairs. apply getitem_at_path in Hentries.
    rewrite Hentries. simpl.
    apply (for_each_first_failure _ id_name id_name_pairs_body good pairs).
    - eapply Forall2_impl; [exact Hgood|]. apply entry_matches_id_name.
    - by apply id_name_raise. }
  destruct c; simpl in *; try discriminate; injection Hkey as <-;
    by rewrite Hpairs.
Qed.

Lemma X3_discovery_first_bad_entry_witness :
  (run Demo.api GetCities
     (Demo.world (Demo.answer Demo.grant (Demo.ok Demo.flawed_cities_body)))
     Demo.start).1
  = Raise (KeyError "Name").
Proof.
  refine (X3_discovery_first_bad_entry Demo.api GetCities "Cities"
            (Demo.world (Demo.answer Demo.grant
                           (Demo.ok Demo.flawed_cities_body)))
            Demo.start "t0k3n" Demo.flawed_cities_body
            [Demo.named 5 "Warszawa"] [(JNum 5, JStr "Warszawa")]
            Demo.nameless [Demo.named 1 "Krakow"] eq_refl _ _ _ _ _ _).
  - split; [reflexivity|]. eexists. split; vm_compute; reflexivity.
  - reflexivity.
  - vm_compute; reflexivity.
  - vm_compute; reflexivity.
  - repeat constructor; vm_compute; reflexivity.
  - right. vm_compute; reflexivity.
Defined.

Lemma day_of_bad_timestamp (world : World) (group : json)
    (slots : list json) (day_visits : list Visit) (v : json) :
  at_path ["AvailableVisitsTermPresentation"] group = Some (JArr slots) ->
  Forall2 slot_matches slots day_visits ->
  at_path ["VisitDate"; "StartDateTime"] group = Some v ->
  (∀ ts, v = JStr ts -> fromisoformat world ts = None) ->
  day_of world group
  = Raise (match v with JStr _ => ValueError | _ => TypeError end).
Proof.
  intros Hslots Hall Hv Hbad. unfold day_of.
  apply getitem_at_path in Hslots. rewrite Hslots. simpl.
  rewrite (for_each_all _ visit_of append_visit_visit_of slots day_visits).
  2: { eapply Forall2_impl; [exact Hall|]. apply slot_matches_visit_of. }
  simpl. apply getitem_at_path2 in Hv.
  destruct (getitem group "VisitDate") as [vd|]; [|discriminate].
  simpl in *. rewrite Hv. simpl. unfold date_part.
  destruct v as [| | |ts| |]; try done. by rewrite (Hbad ts eq_refl).
Qed.

(** X4.  A visit search returns nothing when a day-group, after any
    number of good ones, has good slots but a timestamp that is no string
    or a string the parser rejects: it raises [TypeError] in the first
    case and [ValueError] in the second. *)
Theorem X4_get_visits_first_bad_timestamp (self : LuxmedApi)
    (city_id service_id : Z) (from_date to_date : string)
    (clinic_id doctor_id : option Z) (world : World) (st : State)
    (access_token : string) (body : json) (good : list json)
    (days : list VisitsInDay) (bad : json) (rest slots : list json)
    (day_visits : list Visit) (v : json) :
  let c := GetVisits city_id service_id from_date to_date clinic_id
             doctor_id in
  granted (token_response self world st) access_token ->
  status_code (data_response self world st c access_token) = 200 ->
  json_body (data_response self world st c access_token) = Some body ->
  at_path ["AgregateAvailableVisitTerms"] body
  = Some (JArr (good ++ bad :: rest)) ->
  Forall2 (day_matches world) good days ->
  at_path ["AvailableVisitsTermPresentation"] bad = Some (JArr slots) ->
  Forall2 slot_matches slots day_visits ->
  at_path ["VisitDate"; "StartDateTime"] bad = Some v ->
  (∀ ts, v = JStr ts -> fromisoformat world ts = None) ->
  (get_visits self city_id service_id from_date to_date clinic_id doctor_id
     world st).1
  = Raise (match v with JStr _ => ValueError | _ => TypeError end).
Proof.
  intros c Hgranted Hstatus Hbody Hgroups Hgood Hslots Hall Hv Hbad.
  pose proof (run_answer _ _ _ _ _ _ Hgranted Hstatus Hbody) as Hrun.
  unfold c, normalise in Hrun.
  assert (found_visits_of world body
          = Raise (match v with JStr _ => ValueError | _ => TypeError end))
    as Hfound.
  { unfold found_visits_of. apply getitem_at_path in Hgroups.
    rewrite Hgroups. simpl.
    apply (for_each_first_failure _ (day_of world) (append_day_day_of world)
             good days).
    - eapply Forall2_impl; [exact Hgood|]. apply day_matches_day_of.
    - by eapply day_of_bad_timestamp. }
  rewrite Hfound in Hrun. unfold run, bind, ret in Hrun. simpl in Hrun.
  destruct (get_visits _ _ _ _ _ _ _ _ _) as [[l|e] st1]; simpl in *;
    congruence.
Qed.

Lemma X4_get_visits_first_bad_timestamp_witness :
  (Demo.search
     (Demo.world (Demo.answer Demo.grant (Demo.ok Demo.flawed_terms_body)))
     Demo.start).1
  = Raise TypeError.
Proof.
  refine (X4_get_visits_first_bad_timestamp Demo.api 1 2 "2024-03-01"
            "2024-03-15" None (Some 7)
            (Demo.world (Demo.answer Demo.grant
                           (Demo.ok Demo.flawed_terms_body)))
            Demo.start "t0k3n" Demo.flawed_terms_body [Demo.first_group]
            [mkVisitsInDay "2024-03-15"
               [mkVisit (JStr "08:30") (JStr "Anna Nowak") (JStr "LX Centrum");
                mkVisit (JStr "08:10") (JStr "Jan Kowalski")
                  (JStr "LX Mokotow")]]
            Demo.undated_group []
            [Demo.slot "09:00" "Jan Kowalski" "LX Mokotow"]
            [mkVisit (JStr "09:00") (JStr "Jan Kowalski") (JStr "LX Mokotow")]
            JNull _ _ _ _ _ _ _ _ _).
  - split; [reflexivity|]. eexists. split; vm_compute; reflexivity.
  - reflexivity.
  - vm_compute; reflexivity.
  - vm_compute; reflexivity.
  - constructor; [|constructor].
    exists Demo.slots_of_first_day, "2024-03-15T09:00:00",
      (mkDatetime 2024 3 15 9 0 0 0).
    repeat split; try (vm_compute; reflexivity).
    repeat (constructor; [repeat split; vm_compute; reflexivity|]).
    constructor.
  - vm_compute; reflexivity.
  - repeat (constructor; [repeat split; vm_compute; reflexivity|]).
    constructor.
  - vm_compute; reflexivity.
  - intros ts Hts. discriminate.
Defined.

Lemma getitem_raise (v : json) (key : string) :
  at_path [key] v = None ->
  getitem v key
  = Raise (match v with JObj _ => KeyError key | _ => TypeError end).
Proof.
  unfold getitem. simpl. destruct v as [| | | | |fields]; try done.
  by destruct (fields !! key).
Qed.

(** X5.  When the body of a data response with status 200 lacks the key
    the method reads, the call raises [KeyError] for that key, and
    [TypeError] when the body is no JSON object at all. *)
Theorem X5_missing_key (self : LuxmedApi) (c : call) (world : World)
    (st : State) (access_token : string) (body : json) :
  granted (token_response self world st) access_token ->
  status_code (data_response self world st c access_token) = 200 ->
  json_body (data_response self world st c access_token) = Some body ->
  at_path [body_key c] body = None ->
  (run self c world st).1
  = Raise (match body with
           | JObj _ => KeyError (body_key c)
           | _ => TypeError
           end).
Proof.
  intros Hgranted Hstatus Hbody Hkey.
  rewrite (run_answer _ _ _ _ _ _ Hgranted Hstatus Hbody).
  apply getitem_raise in Hkey.
  destruct c; simpl in *; unfold id_name_pairs, found_visits_of;
    by rewrite Hkey.
Qed.

Lemma X5_missing_key_witness :
  (run Demo.api (GetServices 1)
     (Demo.world (Demo.answer Demo.grant (Demo.ok Demo.other_body)))
     Demo.start).1
  = Raise (KeyError "Services").
Proof.
  refine (X5_missing_key Demo.api (GetServices 1)
            (Demo.world (Demo.answer Demo.grant (Demo.ok Demo.other_body)))
            Demo.start "t0k3n" Demo.other_body _ _ _ _).
  - split; [reflexivity|]. eexists. split; vm_compute; reflexivity.
  - reflexivity.
  - vm_compute; reflexivity.
  - vm_compute; reflexivity.
Defined.

Lemma loop_over_no_array {Y} (body : list Y -> json -> result (list Y))
    (f : json -> result Y) (v : json) :
  (∀ acc x, body acc x = result_bind (f x) (λ y, Ok (appended acc y))) ->
  (∀ k, f (JStr k) = Raise TypeError) ->
  (∀ items, v ≠ JArr items) ->
  (v = JStr "" \/ v = JObj ∅ ->
   result_bind (iterate v) (λ xs, for_each body [] xs) = Ok []) /\
  (v ≠ JStr "" -> v ≠ JObj ∅ ->
   result_bind (iterate v) (λ xs, for_each body [] xs) = Raise TypeError).
Proof.
  intros Hbody Hstr Hno. split.
  - intros [-> | ->]; simpl; [done|]. by rewrite map_to_list_empty.
  - intros Hs Ho. destruct v as [| | |s|items|fields]; simpl; try done.
    + destruct s as [|ch s]; [done|]. simpl. by rewrite Hbody, Hstr.
    + by destruct (Hno items).
    + destruct (map_to_list fields) as [|[k x] l] eqn:Hl.
      * apply map_to_list_empty_iff in Hl. by subst.
      * simpl. by rewrite Hbody, Hstr.
Qed.

(** X6.  When the value under the key a method reads is no array, the
    call raises [TypeError], with two exceptions: the empty string and the
    empty object have nothing to loop over, and the call returns the
    empty list. *)
Theorem X6_no_array_under_key (self : LuxmedApi) (c : call) (world : World)
    (st : State) (access_token : string) (body v : json) :
  granted (token_response self world st) access_token ->
  status_code (data_response self world st c access_token) = 200 ->
  json_body (data_response self world st c access_token) = Some body ->
  at_path [body_key c] body = Some v ->
  (∀ items, v ≠ JArr items) ->
  (v = JStr "" \/ v = JObj ∅ ->
   (run self c world st).1 = Ok (empty_outcome c)) /\
  (v ≠ JStr "" -> v ≠ JObj ∅ ->
   (run self c world st).1 = Raise TypeError).
Proof.
  intros Hgranted Hstatus Hbody Hkey Hno.
  rewrite (run_answer _ _ _ _ _ _ Hgranted Hstatus Hbody).
  apply getitem_at_path in Hkey.
  destruct c; simpl in *; unfold id_name_pairs, found_visits_of;
    rewrite Hkey; simpl.
  1-3: destruct (loop_over_no_array _ id_name v id_name_pairs_body
                   (λ _, eq_refl) Hno) as [Hempty Hraise];
       split; [intros H; by rewrite (Hempty H)
              |intros H1 H2; by rewrite (Hraise H1 H2)].
  destruct (loop_over_no_array _ (day_of world) v (append_day_day_of world)
              (λ _, eq_refl) Hno) as [Hempty Hraise].
  split; [intros H; by rewrite (Hempty H)
         |intros H1 H2; by rewrite (Hraise H1 H2)].
Qed.

Lemma X6_no_array_under_key_witness :
  let cities_as_text := Demo.obj [("Cities", JStr "Warszawa")] in
  (run Demo.api GetCities
     (Demo.world (Demo.answer Demo.grant (Demo.ok cities_as_text)))
     Demo.start).1
  = Raise TypeError.
Proof.
  intros cities_as_text.
  refine (proj2 (X6_no_array_under_key Demo.api GetCities
                   (Demo.world (Demo.answer Demo.grant
                                  (Demo.ok cities_as_text)))
                   Demo.start "t0k3n" cities_as_text (JStr "Warszawa")
                   _ _ _ _ _) _ _).
  - split; [reflexivity|]. eexists. split; vm_compute; reflexivity.
  - reflexivity.
  - vm_compute; reflexivity.
  - vm_compute; reflexivity.
  - discriminate.
  - discriminate.
  - discriminate.
Defined.

(** ** Token responses that cannot be used *)

(** X7.  When the token response has status 200 but no string under
    ['access_token'], the call stops after the token exchange and raises:
    [JSONDecodeError] if the body is not JSON, [KeyError] if it is an
    object without the key, [TypeError] if it is no object or the value is
    no string. *)
Theorem X7_unusable_token (self : LuxmedApi) (c : call) (world : World)
    (st : State) :
  status_code (token_response self world st) = 200 ->
  (∀ access_token, ¬ granted (token_response self world st) access_token) ->
  (run self c world st).1
  = Raise (match json_body (token_response self world st) with
           | None => JSONDecodeError
           | Some (JObj fields) =>
               match fields !! "access_token" with
               | None => KeyError "access_token"
               | Some _ => TypeError
               end
           | Some _ => TypeError
           end) /\
  http_log (run self c world st).2
  = (http_log st ++ [(token_request self world (uuids_drawn st),
                      token_response self world st)])%list.
Proof.
  intros Hstatus Hnot. apply run_refused.
  unfold authorization_of, token_of.
  rewrite (proj2 (_validate_response_200 _) Hstatus). simpl.
  unfold response_json, granted in *.
  destruct (json_body (token_response self world st)) as [body|]; [|done].
  simpl. unfold getitem.
  destruct body as [| | | | |fields]; try done.
  destruct (fields !! "access_token") as [v|] eqn:Hv; [|done]. simpl.
  destruct v as [| | |tok| |]; try done.
  destruct (Hnot tok). split; [done|]. eexists. split; [done|].
  simpl. by rewrite Hv.
Qed.

Lemma X7_unusable_token_witness :
  let w := Demo.world (Demo.answer (Demo.ok Demo.other_body)
                         (Demo.ok Demo.filters_body)) in
  (run Demo.api GetCities w Demo.start).1 = Raise (KeyError "access_token").
Proof.
  intros w.
  refine (proj1 (X7_unusable_token Demo.api GetCities w Demo.start _ _)).
  - reflexivity.
  - intros tok (_ & body & Hbody & Htok). vm_compute in Hbody.
    injection Hbody as <-. vm_compute in Htok. discriminate.
Defined.

(** ** What a whole session keeps *)

Lemma run_log_invariant (P : Request -> Prop) (self : LuxmedApi)
    (world : World) :
  (∀ n, P (token_request self world n)) ->
  (∀ c access_token,
     P (data_request self world c ("Bearer " ++ access_token))) ->
  ∀ (c : call) (st : State),
    Forall (λ x, P x.1) (http_log st) ->
    Forall (λ x, P x.1) (http_log (run self c world st).2).
Proof.
  intros Htoken Hdata c st Hold.
  pose proof (run_exchange self c world st) as [_ H]. cbv zeta in H.
  destruct (authorization_of _) as [a|e] eqn:Hauth; destruct H as [_ ->];
    apply Forall_app; (split; [done|]);
    apply Forall_cons; (split; [apply Htoken|]); [|by apply Forall_nil].
  apply authorization_of_granted in Hauth as (tok & _ & ->).
  apply Forall_cons. split; [apply Hdata|]. by apply Forall_nil.
Qed.

Lemma session_log_invariant (P : Request -> Prop) (self : LuxmedApi)
    (world : World) :
  (∀ n, P (token_request self world n)) ->
  (∀ c access_token,
     P (data_request self world c ("Bearer " ++ access_token))) ->
  ∀ (calls : list call) (st : State),
    Forall (λ x, P x.1) (http_log st) ->
    Forall (λ x, P x.1) (http_log (session self calls world st)).
Proof.
  intros Htoken Hdata calls.
  induction calls as [|c calls IH]; intros st Hst; [done|].
  simpl. apply IH. by apply run_log_invariant.
Qed.

(** X8.  Every request of a session, to whichever endpoint, carries the
    same five headers: the [Custom-User-Agent] computed once for the
    process, the configured language, and the three fixed ones. *)
Theorem X8_common_headers (self : LuxmedApi) (calls : list call)
    (world : World) (drawn : nat) (lines : list string) :
  Forall (λ x, common_headers_ok self world x.1)
    (http_log (session self calls world (mkState [] drawn lines))).
Proof.
  apply session_log_invariant; [| |constructor].
  - intros n. unfold common_headers_ok, token_request, token_headers. simpl.
    repeat split; by simplify_map_eq.
  - intros c tok. unfold common_headers_ok, data_request, bearer_headers.
    simpl. repeat split; by simplify_map_eq.
Qed.


(** X10.  A session of n calls, whether they return or raise, draws
    exactly 2n UUIDs and sends exactly n [POST] requests and at most n
    [GET] requests, after whatever was sent before. *)
Theorem X10_session_counts (self : LuxmedApi) (calls : list call)
    (world : World) (st : State) :
  let st' := session self calls world st in
  uuids_drawn st' = (uuids_drawn st + 2 * length calls)%nat /\
  length (List.filter is_post (http_log st'))
  = (length (List.filter is_post (http_log st)) + length calls)%nat /\
  (length (http_log st') <= length (http_log st) + 2 * length calls)%nat.
Proof.
  revert st. induction calls as [|c calls IH]; intros st; simpl.
  - repeat split; lia.
  - destruct (IH (run self c world st).2) as (Hn & Hposts & Hlen).
    pose proof (run_exchange self c world st) as [Hdrawn H].
    cbv zeta in H, Hdrawn.
    rewrite Hn, Hposts, Hdrawn.
    assert (length (List.filter is_post (http_log (run self c world st).2))
            = S (length (List.filter is_post (http_log st))) /\
            (length (http_log (run self c world st).2)
             <= 2 + length (http_log st))%nat) as [Hp Hl].
    { destruct (authorization_of _); destruct H as [_ ->];
        rewrite List.filter_app, !length_app; simpl; lia. }
    rewrite Hp. repeat split; lia.
Qed.

(** X11.  [get_services] and [get_clinics] for the same city send the
    very same requests and get the same responses: the two methods differ
    only in the key they read from the body. *)
Theorem X11_services_and_clinics_ask_alike (self : LuxmedApi) (city_id : Z)
    (world : World) (st : State) :
  http_log (run self (GetServices city_id) world st).2
  = http_log (run self (GetClinics city_id) world st).2 /\
  ∀ body pairs,
    upstream_body (run self (GetServices city_id) world st).2 = Some body ->
    (run self (GetClinics city_id) world st).1 = Ok (Pairs pairs) ->
    id_name_pairs body "Clinics" = Ok pairs.
Proof.
  pose proof (run_exchange self (GetServices city_id) world st) as [_ Hs].
  pose proof (run_exchange self (GetClinics city_id) world st) as [_ Hc].
  cbv zeta in Hs, Hc.
  assert (http_log (run self (GetServices city_id) world st).2
          = http_log (run self (GetClinics city_id) world st).2) as Hlog.
  { destruct (authorization_of _); destruct Hs as [_ ->], Hc as [_ ->]; done. }
  split; [exact Hlog|].
  intros body pairs Hbody Hrun. unfold upstream_body in Hbody.
  rewrite Hlog in Hbody.
  destruct (run self (GetClinics city_id) world st) as [r st'] eqn:Hrc.
  simpl in Hrun, Hbody. subst r.
  apply run_Ok in Hrc as (b & Hb & Hn). unfold upstream_body in Hb.
  rewrite Hbody in Hb.
  injection Hb as <-. simpl in Hn.
  by destruct (id_name_pairs body "Clinics") as [l|]; [injection Hn as ->|].
Qed.

Lemma X11_services_and_clinics_ask_alike_witness :
  id_name_pairs Demo.filters_body "Clinics"
  = Ok [(JNum 9, JStr "LX Centrum"); (JNum 3, JStr "LX Mokotow")].
Proof.
  refine (proj2 (X11_services_and_clinics_ask_alike Demo.api 1
                   (Demo.world Demo.serve) Demo.start) _ _ _ _);
    vm_compute; reflexivity.
Defined.

(** ** The account identifier *)

Lemma slice_to_all_but_last (n : nat) (s : string) :
  String.length s = S n ->
  String.length (slice_to n s) = n /\
  ∃ last, s = slice_to n s ++ String last EmptyString.
Proof.
  unfold slice_to. revert s. induction n as [|n IH]; intros [|c s] Hlen;
    try discriminate; simpl in *.
  - destruct s; [|discriminate]. split; [done|]. by exists c.
  - injection Hlen as Hlen. destruct (IH s Hlen) as [Hl [last Hs]].
    split; [by rewrite Hl|]. exists last.
    change (String c s
            = String c (substring 0 n s ++ String last EmptyString)).
    by rewrite <- Hs.
Qed.

(** X12.  When [str(uuid.uuid4())] has its usual 36 characters, the
    [account_id] of the authentication body is exactly 35 characters
    long: the UUID without its last character.  The body has the five
    fields of the dict literal and no other. *)
Theorem X12_account_id_drops_last_character (self : LuxmedApi)
    (world : World) (st : State) :
  String.length (uuid4 world (uuids_drawn st)) = 36%nat ->
  ∃ body account last,
    (_prepare_authentication_body self world st).1 = Ok body /\
    dom body = ({["username"; "password"; "grant_type"; "account_id";
                  "client_id"]} : gset string) /\
    body !! "account_id" = Some account /\
    String.length account = 35%nat /\
    uuid4 world (uuids_drawn st) = account ++ String last EmptyString.
Proof.
  intros Hlen.
  destruct (slice_to_all_but_last 35 _ Hlen) as [Hl [last Hs]].
  eexists _, (slice_to 35 (uuid4 world (uuids_drawn st))), last.
  split; [reflexivity|]. unfold authentication_dict.
  split; [rewrite !dom_insert_L, dom_empty_L; set_solver|].
  split; [by simplify_map_eq|]. done.
Qed.

Lemma X12_account_id_drops_last_character_witness :
  ∃ body,
    (_prepare_authentication_body Demo.api (Demo.world Demo.serve)
       Demo.start).1 = Ok body /\
    body !! "account_id" = Some "16fd2706-8baf-433b-82eb-8c7fada847d".
Proof.
  destruct (X12_account_id_drops_last_character Demo.api
              (Demo.world Demo.serve) Demo.start eq_refl)
    as (body & account & last & Hbody & _ & Haccount & _ & Huuid).
  exists body. split; [exact Hbody|]. rewrite Haccount. f_equal.
  injection Hbody as <-. unfold authentication_dict in Haccount.
  rewrite lookup_insert_ne, lookup_insert_ne, lookup_insert_ne,
    lookup_insert_eq in Haccount by done.
  injection Haccount as <-. reflexivity.
Defined.

(** ** What a call prints *)

Lemma _get_access_token_stdout (self : LuxmedApi) (world : World)
    (st : State) :
  let rs := transport world (http_log st)
              (token_request self world (uuids_drawn st)) in
  stdout (_get_access_token self world st).2
  = (stdout st
     ++ "Retrieving an access token from the Luxmed API..."
        :: (if status_code rs =? 200
            then ["The access token has been successfully retrieved"]
            else []))%list.
Proof.
  unfold _get_access_token, token_request, bind, print, ask,
    _prepare_authentication_body, str_uuid4, requests_post, send, ret, lift,
    _validate_response, appended.
  simpl.
  destruct (status_code _ =? 200); simpl.
  - by rewrite <- app_assoc.
  - by destruct (response_json _).
Qed.

Lemma _prepare_headers_stdout (self : LuxmedApi) (version : string)
    (world : World) (st : State) :
  stdout (_prepare_headers self version world st).2
  = stdout (_get_access_token self world st).2.
Proof.
  unfold _prepare_headers, bind, lift, ask, ret.
  destruct (_get_access_token self world st) as [[tok|e] st1]; simpl; [|done].
  by destruct (str_add _ tok).
Qed.

Lemma _send_request_for_filters_stdout (self : LuxmedApi) (params : query)
    (world : World) (st : State) :
  stdout (_send_request_for_filters self params world st).2
  = stdout (_get_access_token self world st).2.
Proof.
  rewrite <- (_prepare_headers_stdout self "3.0").
  unfold _send_request_for_filters, bind, requests_get, send, lift.
  destruct (_prepare_headers self "3.0" world st) as [[headers|e] st1];
    simpl; [|done].
  by destruct (_validate_response _) as [[]|].
Qed.

(** X13.  A call prints its own first line, then the line that announces
    the token request, and then the line that reports the token as
    retrieved exactly when the token response has status 200, also when
    that response holds no usable token or the data request fails later.
    Nothing else is printed. *)
Theorem X13_printed_lines (self : LuxmedApi) (c : call) (world : World)
    (st : State) :
  stdout (run self c world st).2
  = (stdout st
     ++ [banner c; "Retrieving an access token from the Luxmed API..."]
     ++ (if status_code (token_response self world st) =? 200
         then ["The access token has been successfully retrieved"]
         else []))%list.
Proof.
  unfold token_response.
  destruct c as [|city|city|city service from_date to_date clinic doctor].
  1-3: unfold run, get_cities, get_services, get_clinics, bind, print, lift,
         ret;
       match goal with
       | |- context [_send_request_for_filters ?o ?p ?w ?s] =>
           pose proof (_send_request_for_filters_stdout o p w s) as H;
           rewrite (_get_access_token_stdout o w s) in H;
           destruct (_send_request_for_filters o p w s) as [[body|e] st1]
       end;
       simpl in *; unfold appended in H;
       [destruct (id_name_pairs body _)|]; simpl; rewrite H;
       by rewrite <- app_assoc.
  unfold run, get_visits, bind, print, lift, ret, ask, requests_get, send.
  match goal with
  | |- context [_prepare_headers ?o ?v ?w ?s] =>
      pose proof (_prepare_headers_stdout o v w s) as H;
      rewrite (_get_access_token_stdout o w s) in H;
      destruct (_prepare_headers o v w s) as [[headers|e] st1]
  end;
  simpl in *; unfold appended in H.
  - destruct (_validate_response _) as [[]|]; simpl.
    + destruct (response_json _) as [body|]; simpl.
      * destruct (found_visits_of world body); simpl; rewrite H;
          by rewrite <- app_assoc.
      * rewrite H. by rewrite <- app_assoc.
    + rewrite H. by rewrite <- app_assoc.
  - rewrite H. by rewrite <- app_assoc.
Qed.

Lemma X13_printed_lines_example :
  stdout (run Demo.api GetCities
            (Demo.world (Demo.answer (Demo.ok Demo.other_body)
                           (Demo.ok Demo.filters_body)))
            Demo.start).2
  = ["Retrieving cities from the Luxmed API...";
     "Retrieving an access token from the Luxmed API...";
     "The access token has been successfully retrieved"].
Proof.
  rewrite X13_printed_lines. reflexivity.
Defined.
